(** * Weighted course scores (seed.py)

    A shallow embedding of the grading script: the [Assignment] and
    [Student] classes, the module-level validation of the category weights
    and the pipeline that follows it.

    Numbers are the interpreter's floats, that is IEEE 754 binary64 values
    with round-to-nearest-even arithmetic; they are modelled by Rocq's
    primitive floats, which compute with the same operations.  The integer
    literals of the script ([90], [15], the initial total [0], the
    thresholds) only ever meet true division, multiplication or addition
    with floats, comparison and [.2f] formatting, where an integer of this
    size behaves as the float of the same value; they are written as
    floats.

    Standard output is the list of chunks written, in order: [print]
    writes its argument followed by a newline, [input] writes its prompt. *)

From Stdlib Require Import ZArith NArith List String Ascii Bool Lia.
From Stdlib Require Import PrimFloat FloatOps SpecFloat FloatAxioms.
From Stdlib Require Import DecimalString.
Import ListNotations.

Set Warnings "-inexact-float".

Local Open Scope string_scope.
Local Open Scope list_scope.

(** ** Characters and strings the script writes *)

Definition nl : string := String (ascii_of_nat 10) EmptyString.
Definition tab : string := String (ascii_of_nat 9) EmptyString.

(** [s * n] on a string. *)
Fixpoint str_repeat (s : string) (n : nat) : string :=
  match n with
  | O => EmptyString
  | S k => (s ++ str_repeat s k)%string
  end.

(** ** A writer-and-state monad for the methods

    A method body runs on the object it is called on ([self]) and writes
    to standard output; [M S A] threads the object and collects what is
    written. *)

Module Py.

Definition M (S A : Type) : Type := S -> A * S * list string.

Definition ret {S A} (a : A) : M S A := fun s => (a, s, []).

Definition bind {S A B} (m : M S A) (k : A -> M S B) : M S B :=
  fun s =>
    let '(a, s1, o1) := m s in
    let '(b, s2, o2) := k a s1 in
    (b, s2, o1 ++ o2).

Definition get {S} : M S S := fun s => (s, s, []).

Definition modify {S} (f : S -> S) : M S unit := fun s => (tt, f s, []).

(** [print(x)] *)
Definition print {S} (x : string) : M S unit := fun s => (tt, s, [(x ++ nl)%string]).

(** [for x in l: body] *)
Fixpoint for_each {S B} (l : list B) (body : B -> M S unit) : M S unit :=
  match l with
  | [] => ret tt
  | x :: rest => bind (body x) (fun _ => for_each rest body)
  end.

(** The object a method leaves behind, and what it wrote. *)
Definition state_of {S A} (r : A * S * list string) : S := snd (fst r).
Definition output_of {S A} (r : A * S * list string) : list string := snd r.

End Py.

Notation "x <- m ;; k" := (Py.bind m (fun x => k))
  (at level 61, m at next level, right associativity).
Notation "m ;;; k" := (Py.bind m (fun _ => k))
  (at level 61, right associativity).

(** ** class Assignment *)

(** [type] is a string documented as either "Formative" or "Summative";
    the two values are the constructors, [type == "Formative"] is
    [category_eqb _ Formative], and the [else] of that test is the
    summative case. *)
Inductive category : Type := Formative | Summative.

Definition category_eqb (a b : category) : bool :=
  match a, b with
  | Formative, Formative | Summative, Summative => true
  | _, _ => false
  end.

(** [str] of the type field, as the transcript prints it. *)
Definition category_str (c : category) : string :=
  match c with
  | Formative => "Formative"
  | Summative => "Summative"
  end.

Record Assignment : Type := mkAssignment {
  name : string;
  type : category;
  score : float;
  weight : float
}.

Local Open Scope float_scope.

(** [return (self.score / 100) * self.weight] *)
Definition calculate_weighted_score (self : Assignment) : float :=
  (score self / 100) * weight self.

(** ** class Student *)

Record Student : Type := mkStudent {
  assignments : list Assignment;
  formative_total : float;
  summative_total : float
}.

(** [Student.__init__] *)
Definition Student_init (l : list Assignment) : Student :=
  {| assignments := l; formative_total := 0; summative_total := 0 |}.

Definition add_formative (w : float) (self : Student) : Student :=
  {| assignments := assignments self;
     formative_total := formative_total self + w;
     summative_total := summative_total self |}.

Definition add_summative (w : float) (self : Student) : Student :=
  {| assignments := assignments self;
     formative_total := formative_total self;
     summative_total := summative_total self + w |}.

Definition resubmission_notice (n : string) : string :=
  ("Assignment '" ++ n ++ "' is eligible for resubmission.")%string.

(** [assignment.type == "Formative" and assignment.score < 50] *)
Definition eligible (a : Assignment) : bool :=
  category_eqb (type a) Formative && (score a <? 50).

(** The body of the loop of [calculate_scores]. *)
Definition score_one (assignment : Assignment) : Py.M Student unit :=
  let weighted_score := calculate_weighted_score assignment in
  (if category_eqb (type assignment) Formative
   then Py.modify (add_formative weighted_score)
   else Py.modify (add_summative weighted_score)) ;;;
  if eligible assignment
  then Py.print (resubmission_notice (name assignment))
  else Py.ret tt.

Definition calculate_scores : Py.M Student unit :=
  self <- Py.get ;;
  Py.for_each (assignments self) score_one.

(** ** The sample data of the script *)

Definition sample_assignments : list Assignment :=
  [ mkAssignment "Assignment 1" Formative 90 15;
    mkAssignment "Assignment 2" Formative 65 10;
    mkAssignment "Assignment 3" Formative 100 10;
    mkAssignment "Assignment 4" Formative 100 15;
    mkAssignment "Midterm" Summative 77.5 20;
    mkAssignment "Final Exam" Summative 97.5 20 ].

(** The student after one call of [calculate_scores]. *)
Definition scored (l : list Assignment) : Student :=
  Py.state_of (calculate_scores (Student_init l)).

(** ** Student.check_progression *)

Definition congratulations : string :=
  "Congratulations! You have passed the course and progressed to the next level.".
Definition not_met : string :=
  "Unfortunately, you have not met the minimum requirements.".
Definition formative_below : string := "Your formative score is below 30%.".
Definition summative_below : string := "Your summative score is below 20%.".

Definition check_progression : Py.M Student unit :=
  self <- Py.get ;;
  let passed_formative := 30 <=? formative_total self in
  let passed_summative := 20 <=? summative_total self in
  if passed_formative && passed_summative
  then Py.print congratulations
  else
    Py.print not_met ;;;
    (if negb passed_formative then Py.print formative_below else Py.ret tt) ;;;
    (if negb passed_summative then Py.print summative_below else Py.ret tt).

(** ** The format specification [.2f]

    The interpreter renders a finite float in fixed notation with the
    exact binary value rounded half-to-even to two fractional digits, keeps
    the sign of negative values and of negative zero, and renders the
    values that are not finite as [nan], [inf] and [-inf]. *)

Definition round_half_even (num den : Z) : Z :=
  let q := (num / den)%Z in
  let r := (num mod den)%Z in
  if ((den <? 2 * r) || ((2 * r =? den) && Z.odd q))%Z then (q + 1)%Z else q.

(** The value [m * 2^e] in hundredths, rounded to an integer. *)
Definition hundredths (m : positive) (e : Z) : Z :=
  match e with
  | Zneg p => round_half_even (Zpos m * 100) (2 ^ Zpos p)
  | _ => (Zpos m * 2 ^ e * 100)%Z
  end.

Definition digit (d : Z) : ascii :=
  match d with
  | 0%Z => "0" | 1%Z => "1" | 2%Z => "2" | 3%Z => "3" | 4%Z => "4"
  | 5%Z => "5" | 6%Z => "6" | 7%Z => "7" | 8%Z => "8" | _ => "9"
  end%char.

Definition decimal (n : Z) : string :=
  NilZero.string_of_uint (N.to_uint (Z.to_N n)).

Definition fixed2 (negative : bool) (h : Z) : string :=
  ((if negative then "-" else "")
   ++ decimal (h / 100)
   ++ "."
   ++ String (digit (h mod 100 / 10)) (String (digit (h mod 100 mod 10)) ""))%string.

Definition format_2f (x : float) : string :=
  match Prim2SF x with
  | S754_nan => "nan"
  | S754_infinity s => if s then "-inf" else "inf"
  | S754_zero s => fixed2 s 0
  | S754_finite s m e => fixed2 s (hundredths m e)
  end.

(** ** Student.generate_transcript *)

Definition transcript_row (assignment : Assignment) : string :=
  (name assignment ++ tab ++ category_str (type assignment) ++ tab
   ++ format_2f (score assignment) ++ tab ++ format_2f (weight assignment))%string.

Definition formative_line (self : Student) : string :=
  (nl ++ "Formative Total: " ++ format_2f (formative_total self) ++ "%")%string.
Definition summative_line (self : Student) : string :=
  ("Summative Total: " ++ format_2f (summative_total self) ++ "%")%string.

Definition generate_transcript : Py.M Student unit :=
  Py.print "scores in linux and IT tools" ;;;
  Py.print ("Assignment" ++ tab ++ "Type" ++ tab ++ "Score(%)" ++ tab ++ "Weight(%)")%string ;;;
  Py.print (str_repeat "-" 40) ;;;
  self <- Py.get ;;
  Py.for_each (assignments self)
    (fun assignment => Py.print (transcript_row assignment)) ;;;
  self <- Py.get ;;
  Py.print (formative_line self) ;;;
  self <- Py.get ;;
  Py.print (summative_line self).

(** ** The module-level script *)

(** The built-in [sum] on floats: it starts from 0 and adds the items from
    left to right.  (Interpreters from 3.12 on also carry a compensation
    term for the rounding error; on weights that add up without rounding,
    as the sample's do, the results are the same.) *)
Definition py_sum (l : list float) : float := fold_left PrimFloat.add l 0.

Definition total_formative_weight (l : list Assignment) : float :=
  py_sum (map weight (filter (fun a => category_eqb (type a) Formative) l)).

Definition total_summative_weight (l : list Assignment) : float :=
  py_sum (map weight (filter (fun a => category_eqb (type a) Summative) l)).

(** [total_formative_weight > 60 or total_summative_weight > 40] *)
Definition weights_exceed (l : list Assignment) : bool :=
  (60 <? total_formative_weight l) || (40 <? total_summative_weight l).

Definition weight_error : string :=
  "Error: Formative or summative weights exceed the allowed limit.".

Definition order_prompt : string :=
  (nl ++ "Would you like to see your transcript in ascending or descending order? (ascending/descending): ")%string.

(** The module's variables once the script has run, and what it wrote.
    [student] and [order] are bound only on the branch that assigns
    them. *)
Record run : Type := mkRun {
  g_assignments : list Assignment;
  g_student : option Student;
  g_order : option string;
  stdout : list string
}.

(** The three calls of the [else] branch, on the student just created;
    [input] writes its prompt between the second and the third. *)
Definition pipeline : Py.M Student unit :=
  calculate_scores ;;;
  check_progression ;;;
  (fun self => (tt, self, [order_prompt])) ;;;
  generate_transcript.

(** The script on the list [l], with [answer] the line typed at the
    prompt. *)
Definition main (l : list Assignment) (answer : string) : run :=
  if weights_exceed l
  then {| g_assignments := l; g_student := None; g_order := None;
          stdout := [(weight_error ++ nl)%string] |}
  else
    let r := pipeline (Student_init l) in
    {| g_assignments := l; g_student := Some (Py.state_of r);
       g_order := Some answer; stdout := Py.output_of r |}.

(** The transcript of a run: what [generate_transcript] writes. *)
Definition transcript (self : Student) : list string :=
  Py.output_of (generate_transcript self).

(** ** Notions the statements below use *)

(** The sum of (score/100)*weight over the records of one category, added
    in the order of the list, from 0. *)
Definition category_sum (c : category) (l : list Assignment) : float :=
  fold_left (fun acc a => acc + (score a / 100) * weight a)
            (filter (fun a => category_eqb (type a) c) l) 0.

(** The same accumulation continued from a total already reached. *)
Definition accumulate (c : category) (l : list Assignment) (total : float) : float :=
  fold_left (fun acc a => acc + calculate_weighted_score a)
            (filter (fun a => category_eqb (type a) c) l) total.

(** A rendering with exactly two decimal digits: an optional minus sign,
    one or more digits, a point, two digits, and nothing more. *)
Definition is_digit (c : ascii) : bool :=
  (48 <=? nat_of_ascii c)%nat && (nat_of_ascii c <=? 57)%nat.

Definition two_digits_only (s : string) : bool :=
  match s with
  | String a (String b EmptyString) => is_digit a && is_digit b
  | _ => false
  end.

Fixpoint digits_then_fraction (s : string) : bool :=
  match s with
  | EmptyString => false
  | String c rest =>
      if is_digit c then digits_then_fraction rest
      else Ascii.eqb c "." && two_digits_only rest
  end.

Definition unsigned_two_decimals (s : string) : bool :=
  match s with
  | EmptyString => false
  | String c _ => is_digit c && digits_then_fraction s
  end.

Definition two_decimals (s : string) : bool :=
  match s with
  | EmptyString => false
  | String c rest =>
      if Ascii.eqb c "-" then unsigned_two_decimals rest
      else unsigned_two_decimals s
  end.

(** The three lines that open the transcript, and the two that close it. *)
Definition transcript_header : list string :=
  [ ("scores in linux and IT tools" ++ nl)%string;
    ("Assignment" ++ tab ++ "Type" ++ tab ++ "Score(%)" ++ tab ++ "Weight(%)" ++ nl)%string;
    (str_repeat "-" 40 ++ nl)%string ].

Definition transcript_totals (self : Student) : list string :=
  [ (formative_line self ++ nl)%string; (summative_line self ++ nl)%string ].

(** Every number the transcript of [self] shows is rendered with exactly
    two decimal digits: the score and the weight of each row, and the two
    totals. *)
Definition transcript_numbers_two_decimals (self : Student) : Prop :=
  (forall a, In a (assignments self) ->
     two_decimals (format_2f (score a)) = true
     /\ two_decimals (format_2f (weight a)) = true)
  /\ two_decimals (format_2f (formative_total self)) = true
  /\ two_decimals (format_2f (summative_total self)) = true.

(** A list that passes the validation with a weight that is not a
    number, and one whose second pass rounds differently from the
    first. *)
Definition nan_weight_assignments : list Assignment :=
  [ mkAssignment "Quiz" Formative 80 nan ].

Definition rounding_assignments : list Assignment :=
  [ mkAssignment "Assignment 1" Formative 40 15;
    mkAssignment "Assignment 2" Formative 41 10 ].

Definition overweight_assignments : list Assignment :=
  [ mkAssignment "Assignment 1" Formative 90 30;
    mkAssignment "Assignment 2" Formative 65 31 ].

(** The student after a second call on the same object. *)
Definition scored_twice (l : list Assignment) : Student :=
  Py.state_of (calculate_scores (scored l)).

(** A chunk that ends its line: its last character is the newline. *)
Fixpoint ends_with_nl (s : string) : bool :=
  match s with
  | EmptyString => false
  | String c rest =>
      match rest with
      | EmptyString => Ascii.eqb c (ascii_of_nat 10)
      | String _ _ => ends_with_nl rest
      end
  end.

(** What the validation reads of a record. *)
Definition type_and_weight (a : Assignment) : category * float :=
  (type a, weight a).

(** Lists of one category only, a list that sits on both caps, and the
    sample with other names and scores. *)
Definition summative_only_assignments : list Assignment :=
  [ mkAssignment "Midterm" Summative 77.5 20;
    mkAssignment "Final Exam" Summative 97.5 20 ].

Definition formative_only_assignments : list Assignment :=
  [ mkAssignment "Assignment 1" Formative 90 15;
    mkAssignment "Assignment 2" Formative 45 10 ].

Definition boundary_assignments : list Assignment :=
  [ mkAssignment "Portfolio" Formative 70 60;
    mkAssignment "Exam" Summative 55 40 ].

Definition regraded_assignments : list Assignment :=
  [ mkAssignment "Lab 1" Formative 10 15;
    mkAssignment "Lab 2" Formative 20 10;
    mkAssignment "Lab 3" Formative 30 10;
    mkAssignment "Lab 4" Formative 40 15;
    mkAssignment "Test 1" Summative 50 20;
    mkAssignment "Test 2" Summative 60 20 ].



(** A score or a weight of the documented range, 0 to 100. *)
Definition in_range (x : float) : bool := (0 <=? x) && (x <=? 100).

(** On the specification of a float: a zero, or a positive finite number
    below [2 ^ K]; and a zero or any positive finite number. *)
Definition nonneg_below (K : Z) (f : spec_float) : Prop :=
  match f with
  | S754_zero _ => True
  | S754_finite false m e => (Zpos (digits2_pos m) + e <= K)%Z
  | _ => False
  end.

Definition nonneg_finite (f : spec_float) : Prop :=
  match f with
  | S754_zero _ => True
  | S754_finite false _ _ => True
  | _ => False
  end.

(** * Properties *)

(** ** The monad *)

(** A loop whose body only prints leaves the object alone and writes one
    chunk per item, in order. *)
Lemma for_each_print {S B} (f : B -> string) (l : list B) (s : S) :
  Py.for_each l (fun x => Py.print (f x)) s
  = (tt, s, map (fun x => (f x ++ nl)%string) l).
Proof.
  induction l as [|x rest IH]; simpl.
  - reflexivity.
  - unfold Py.bind. simpl. rewrite IH. reflexivity.
Qed.

(** ** calculate_scores *)

Lemma score_one_spec (a : Assignment) (s : Student) :
  score_one a s
  = (tt,
     (if category_eqb (type a) Formative
      then add_formative (calculate_weighted_score a) s
      else add_summative (calculate_weighted_score a) s),
     if eligible a then [(resubmission_notice (name a) ++ nl)%string] else []).
Proof.
  unfold score_one, Py.bind.
  destruct (category_eqb (type a) Formative); simpl;
    destruct (eligible a); reflexivity.
Qed.

(** What the loop of [calculate_scores] does from any state. *)
Lemma for_each_score_one (l : list Assignment) :
  forall s : Student,
    Py.for_each l score_one s
    = (tt,
       {| assignments := assignments s;
          formative_total := accumulate Formative l (formative_total s);
          summative_total := accumulate Summative l (summative_total s) |},
       map (fun a => (resubmission_notice (name a) ++ nl)%string)
           (filter eligible l)).
Proof.
  induction l as [|a rest IH]; intros s.
  - destruct s; reflexivity.
  - cbn [Py.for_each]. unfold Py.bind at 1.
    rewrite score_one_spec. rewrite IH.
    unfold accumulate. cbn [filter].
    destruct (type a) eqn:Ety; cbn [category_eqb];
      destruct (eligible a); reflexivity.
Qed.

Lemma calculate_scores_spec (s : Student) :
  calculate_scores s
  = (tt,
     {| assignments := assignments s;
        formative_total := accumulate Formative (assignments s) (formative_total s);
        summative_total := accumulate Summative (assignments s) (summative_total s) |},
     map (fun a => (resubmission_notice (name a) ++ nl)%string)
         (filter eligible (assignments s))).
Proof.
  unfold calculate_scores, Py.bind, Py.get.
  rewrite for_each_score_one. reflexivity.
Qed.

(** C1: for every list of assignment records whose formative weights sum
    to at most 60 and whose summative weights sum to at most 40, one call
    of [calculate_scores] on a new student leaves a formative total equal
    to the sum of (score/100)*weight over the formative records, and a
    summative total equal to that sum over the summative records. *)
Theorem calculate_scores_totals (l : list Assignment) :
  (total_formative_weight l <=? 60) = true ->
  (total_summative_weight l <=? 40) = true ->
  formative_total (scored l) = category_sum Formative l
  /\ summative_total (scored l) = category_sum Summative l.
Proof.
  intros _ _. unfold scored. rewrite calculate_scores_spec.
  split; reflexivity.
Qed.

Lemma calculate_scores_totals_sample :
  (total_formative_weight sample_assignments <=? 60) = true
  /\ (total_summative_weight sample_assignments <=? 40) = true
  /\ formative_total (scored sample_assignments)
     = category_sum Formative sample_assignments
  /\ summative_total (scored sample_assignments)
     = category_sum Summative sample_assignments.
Proof.
  split; [reflexivity|]. split; [reflexivity|].
  apply (calculate_scores_totals sample_assignments); reflexivity.
Defined.

(** The contributions of the six sample records. *)
Example sample_contributions :
  map calculate_weighted_score sample_assignments
  = [13.5; 6.5; 10; 15; 15.5; 19.5].
Proof. reflexivity. Qed.

(** C2, as the code computes it: on the sample data one call of
    [calculate_scores] yields formative_total = 45 and
    summative_total = 35. *)
Theorem sample_totals :
  formative_total (scored sample_assignments) = 45
  /\ summative_total (scored sample_assignments) = 35.
Proof. split; reflexivity. Qed.

(** C2, as stated (49.5 and 39.5), does not hold: neither total has the
    stated value. *)
Lemma sample_totals_not_as_stated :
  formative_total (scored sample_assignments) <> 49.5
  /\ summative_total (scored sample_assignments) <> 39.5.
Proof.
  split; intro E.
  - assert (H : (formative_total (scored sample_assignments) =? 45) = true)
      by reflexivity.
    rewrite E in H. discriminate H.
  - assert (H : (summative_total (scored sample_assignments) =? 35) = true)
      by reflexivity.
    rewrite E in H. discriminate H.
Qed.

(** ** check_progression *)

Lemma check_progression_cases (s : Student) :
  check_progression s
  = (tt, s,
     if (30 <=? formative_total s) && (20 <=? summative_total s)
     then [(congratulations ++ nl)%string]
     else (not_met ++ nl)%string
          :: (if 30 <=? formative_total s then []
              else [(formative_below ++ nl)%string])
          ++ (if 20 <=? summative_total s then []
              else [(summative_below ++ nl)%string])).
Proof.
  unfold check_progression, Py.bind, Py.get.
  destruct (30 <=? formative_total s), (20 <=? summative_total s);
    reflexivity.
Qed.

(** C3: for every pair of totals, [check_progression] reports the student
    as passed (it prints the congratulation, and nothing else) if and only
    if formative_total >= 30 and summative_total >= 20. *)
Theorem check_progression_passed (l : list Assignment) (ft st : float) :
  Py.output_of (check_progression (mkStudent l ft st))
  = [(congratulations ++ nl)%string]
  <-> (30 <=? ft) = true /\ (20 <=? st) = true.
Proof.
  rewrite check_progression_cases. unfold Py.output_of. cbn [snd].
  cbn [formative_total summative_total].
  destruct (30 <=? ft), (20 <=? st); cbn [andb]; split;
    try (intros; split; reflexivity);
    try reflexivity;
    try (intros H; discriminate H);
    try (intros [H1 H2]; discriminate).
Qed.

(** C9: [check_progression] only reads the totals: whatever the student,
    the call leaves the assignment list, formative_total and
    summative_total as they were. *)
Theorem check_progression_frame (s : Student) :
  Py.state_of (check_progression s) = s
  /\ assignments (Py.state_of (check_progression s)) = assignments s
  /\ formative_total (Py.state_of (check_progression s)) = formative_total s
  /\ summative_total (Py.state_of (check_progression s)) = summative_total s.
Proof.
  rewrite check_progression_cases. unfold Py.state_of. cbn [fst snd].
  repeat split.
Qed.

Lemma length_append (a b : string) :
  String.length (a ++ b)%string = (String.length a + String.length b)%nat.
Proof.
  induction a as [|x a IH]; cbn [String.append String.length Nat.add].
  - reflexivity.
  - rewrite IH. reflexivity.
Qed.

Lemma append_inv_tail (t : string) :
  forall a b : string, (a ++ t = b ++ t)%string -> a = b.
Proof.
  induction a as [|x a IH]; intros [|y b] H.
  - reflexivity.
  - apply (f_equal String.length) in H.
    cbn [String.append String.length] in H. rewrite length_append in H. lia.
  - apply (f_equal String.length) in H.
    cbn [String.append String.length] in H. rewrite length_append in H. lia.
  - cbn [String.append] in H. injection H as Hx Hrest.
    rewrite Hx, (IH b Hrest). reflexivity.
Qed.

Lemma resubmission_notice_inj (n1 n2 : string) :
  resubmission_notice n1 = resubmission_notice n2 -> n1 = n2.
Proof.
  unfold resubmission_notice. intros H.
  cbn [String.append] in H. injection H as H.
  exact (append_inv_tail _ _ _ H).
Qed.

(** C4: for every list of assignment records, the resubmission notices
    written by [calculate_scores] name exactly the formative records whose
    score is strictly below 50, in the order of the input list; a notice
    determines the name it carries. *)
Theorem resubmission_notices (l : list Assignment) :
  Py.output_of (calculate_scores (Student_init l))
  = map (fun n => (resubmission_notice n ++ nl)%string)
        (map name
             (filter (fun a => category_eqb (type a) Formative && (score a <? 50)) l))
  /\ (forall n1 n2 : string,
        (resubmission_notice n1 ++ nl)%string = (resubmission_notice n2 ++ nl)%string ->
        n1 = n2).
Proof.
  split.
  - rewrite calculate_scores_spec. unfold Py.output_of.
    cbn [snd Student_init assignments].
    rewrite map_map. reflexivity.
  - intros n1 n2 H. apply resubmission_notice_inj.
    exact (append_inv_tail _ _ _ H).
Qed.

(** ** generate_transcript and the script *)

Lemma generate_transcript_spec (s : Student) :
  generate_transcript s
  = (tt, s,
     transcript_header
     ++ map (fun a => (transcript_row a ++ nl)%string) (assignments s)
     ++ transcript_totals s).
Proof.
  unfold generate_transcript.
  repeat (unfold Py.bind at 1; cbn [Py.print Py.get]).
  rewrite for_each_print. reflexivity.
Qed.

Lemma pipeline_spec (s : Student) :
  pipeline s
  = (tt,
     Py.state_of (calculate_scores s),
     Py.output_of (calculate_scores s)
     ++ Py.output_of (check_progression (Py.state_of (calculate_scores s)))
     ++ [order_prompt]
     ++ transcript (Py.state_of (calculate_scores s))).
Proof.
  unfold pipeline, transcript, Py.bind.
  rewrite calculate_scores_spec. unfold Py.state_of, Py.output_of. cbn [fst snd].
  rewrite check_progression_cases. rewrite generate_transcript_spec.
  cbn [fst snd]. reflexivity.
Qed.


Lemma main_rejects (l : list Assignment) (answer : string) :
  weights_exceed l = true ->
  main l answer
  = {| g_assignments := l; g_student := None; g_order := None;
       stdout := [(weight_error ++ nl)%string] |}.
Proof. intros H. unfold main. rewrite H. reflexivity. Qed.

Lemma main_accepts (l : list Assignment) (answer : string) :
  weights_exceed l = false ->
  main l answer
  = {| g_assignments := l;
       g_student := Some (scored l);
       g_order := Some answer;
       stdout := Py.output_of (pipeline (Student_init l)) |}.
Proof.
  intros H. unfold main. rewrite H. rewrite pipeline_spec. reflexivity.
Qed.




(** C6: whenever the validation fails, the script prints the error
    message and nothing else: no resubmission notice, no progression
    message, no prompt and no transcript, no student is created (so no
    total is computed), and the record list is the one it was given. *)
Theorem validation_failure_skips_pipeline (l : list Assignment) (answer : string) :
  weights_exceed l = true ->
  stdout (main l answer) = [(weight_error ++ nl)%string]
  /\ g_student (main l answer) = None
  /\ g_order (main l answer) = None
  /\ g_assignments (main l answer) = l.
Proof.
  intros H. rewrite (main_rejects l answer H). repeat split.
Qed.

Lemma validation_failure_overweight :
  weights_exceed overweight_assignments = true
  /\ stdout (main overweight_assignments "ascending") = [(weight_error ++ nl)%string]
  /\ g_student (main overweight_assignments "ascending") = None
  /\ g_order (main overweight_assignments "ascending") = None
  /\ g_assignments (main overweight_assignments "ascending") = overweight_assignments.
Proof.
  split; [reflexivity|].
  apply (validation_failure_skips_pipeline overweight_assignments "ascending").
  reflexivity.
Defined.

(** C8: two runs on the same record list that differ only in the line
    typed at the prompt, whatever the text, write the same output and leave
    the same student; the transcript lists the records in the order of the
    input list, between the same header and the totals. *)
Theorem order_answer_is_ignored (l : list Assignment) (answer1 answer2 : string) :
  stdout (main l answer1) = stdout (main l answer2)
  /\ g_student (main l answer1) = g_student (main l answer2)
  /\ (forall self : Student,
        transcript self
        = transcript_header
          ++ map (fun a => (transcript_row a ++ nl)%string) (assignments self)
          ++ transcript_totals self)
  /\ (weights_exceed l = false ->
      exists before,
        stdout (main l answer1)
        = before ++ [order_prompt]
          ++ transcript_header
          ++ map (fun a => (transcript_row a ++ nl)%string) l
          ++ transcript_totals (scored l)).
Proof.
  split; [|split; [|split]].
  - unfold main. destruct (weights_exceed l); reflexivity.
  - unfold main. destruct (weights_exceed l); reflexivity.
  - intros self. unfold transcript. rewrite generate_transcript_spec.
    reflexivity.
  - intros Hw. rewrite (main_accepts l answer1 Hw). cbn [stdout].
    rewrite pipeline_spec. unfold Py.output_of at 1. cbn [snd].
    exists (Py.output_of (calculate_scores (Student_init l))
            ++ Py.output_of (check_progression (Py.state_of (calculate_scores (Student_init l))))).
    rewrite <- app_assoc. do 3 f_equal.
    unfold transcript. rewrite generate_transcript_spec.
    unfold Py.output_of. cbn [snd].
    fold (scored l). do 2 f_equal.
    unfold scored. rewrite calculate_scores_spec. reflexivity.
Qed.

(** ** Calling calculate_scores again *)

(** C10, as the code behaves: a new student has formative_total = 0 and
    summative_total = 0, and [calculate_scores] adds onto the totals it
    finds without resetting them, so a second call adds every contribution
    again, in order, onto the totals the first call left.  On the sample
    data the totals after two calls are 90 and 70, twice the 45 and 35 of a
    single call, so the operation is not idempotent. *)
Theorem calculate_scores_accumulates (l : list Assignment) :
  formative_total (Student_init l) = 0
  /\ summative_total (Student_init l) = 0
  /\ (forall s : Student,
        assignments (Py.state_of (calculate_scores s)) = assignments s
        /\ formative_total (Py.state_of (calculate_scores s))
           = accumulate Formative (assignments s) (formative_total s)
        /\ summative_total (Py.state_of (calculate_scores s))
           = accumulate Summative (assignments s) (summative_total s))
  /\ formative_total (scored_twice l)
     = accumulate Formative l (formative_total (scored l))
  /\ summative_total (scored_twice l)
     = accumulate Summative l (summative_total (scored l))
  /\ formative_total (scored_twice sample_assignments)
     = 2 * formative_total (scored sample_assignments)
  /\ summative_total (scored_twice sample_assignments)
     = 2 * summative_total (scored sample_assignments)
  /\ formative_total (scored_twice sample_assignments) = 90
  /\ summative_total (scored_twice sample_assignments) = 70
  /\ scored_twice sample_assignments <> scored sample_assignments.
Proof.
  split; [reflexivity|]. split; [reflexivity|].
  split.
  { intros s. rewrite calculate_scores_spec. unfold Py.state_of. cbn [fst snd].
    repeat split. }
  unfold scored_twice.
  split.
  { rewrite calculate_scores_spec. unfold Py.state_of at 1. cbn [fst snd formative_total].
    f_equal. unfold scored. rewrite calculate_scores_spec. reflexivity. }
  split.
  { rewrite calculate_scores_spec. unfold Py.state_of at 1. cbn [fst snd summative_total].
    f_equal. unfold scored. rewrite calculate_scores_spec. reflexivity. }
  repeat (split; [reflexivity|]).
  intros E.
  assert (H : (formative_total (Py.state_of (calculate_scores (scored sample_assignments)))
               =? 90) = true) by reflexivity.
  rewrite E in H. discriminate H.
Qed.

(** C10, as stated, does not hold for every list: with two formative
    records of scores 40 and 41 and weights 15 and 10, a single call leaves
    10.1 and a second call leaves 20.200000000000003, which is not twice
    10.1. *)
Lemma second_pass_not_twice :
  formative_total (scored rounding_assignments) = 10.1
  /\ formative_total (scored_twice rounding_assignments) = 20.200000000000003
  /\ formative_total (scored_twice rounding_assignments)
     <> 2 * formative_total (scored rounding_assignments).
Proof.
  split; [reflexivity|]. split; [reflexivity|].
  intros E.
  assert (H : (formative_total (scored_twice rounding_assignments)
               =? 20.200000000000003) = true) by reflexivity.
  rewrite E in H. discriminate H.
Qed.

(** ** Two decimal digits *)

Lemma append_assoc (a b c : string) :
  ((a ++ b) ++ c = a ++ (b ++ c))%string.
Proof.
  induction a as [|x a IH]; cbn [String.append].
  - reflexivity.
  - rewrite IH. reflexivity.
Qed.

Lemma digit_is_digit (d : Z) : is_digit (digit d) = true.
Proof.
  destruct d as [|p|p]; try reflexivity.
  do 4 (try destruct p as [p|p|]); reflexivity.
Qed.

Lemma digits_then_fraction_skip (u : Decimal.uint) (rest : string) :
  digits_then_fraction (NilEmpty.string_of_uint u ++ rest)%string
  = digits_then_fraction rest.
Proof.
  induction u as [|u IH|u IH|u IH|u IH|u IH|u IH|u IH|u IH|u IH|u IH];
    cbn [NilEmpty.string_of_uint String.append]; [reflexivity | .. ];
    cbn [digits_then_fraction]; exact IH.
Qed.

Lemma digits_then_fraction_point (a b : ascii) :
  digits_then_fraction ("." ++ String a (String b ""))%string
  = is_digit a && is_digit b.
Proof. reflexivity. Qed.

Lemma unsigned_decimal_fraction (n : Z) (a b : ascii) :
  is_digit a = true -> is_digit b = true ->
  unsigned_two_decimals (decimal n ++ "." ++ String a (String b ""))%string = true
  /\ exists c rest,
       (decimal n ++ "." ++ String a (String b ""))%string = String c rest
       /\ is_digit c = true.
Proof.
  intros Ha Hb. unfold decimal, NilZero.string_of_uint.
  assert (Hall : forall u : Decimal.uint,
             digits_then_fraction
               (NilEmpty.string_of_uint u ++ "." ++ String a (String b ""))%string
             = true).
  { intros u. rewrite digits_then_fraction_skip, digits_then_fraction_point.
    rewrite Ha, Hb. reflexivity. }
  destruct (N.to_uint (Z.to_N n)) as [|u|u|u|u|u|u|u|u|u|u] eqn:Eu.
  1: { split.
       - cbn. rewrite Ha, Hb. reflexivity.
       - eexists; eexists; split; [reflexivity | reflexivity]. }
  all: split;
    [ unfold unsigned_two_decimals;
      cbn [NilEmpty.string_of_uint String.append];
      match goal with
      | |- is_digit ?c && digits_then_fraction (String ?c ?s) = true =>
          change (digits_then_fraction s = true)
      end;
      apply Hall
    | cbn [NilEmpty.string_of_uint String.append];
      eexists; eexists; split; [reflexivity | reflexivity] ].
Qed.

Lemma fixed2_two_decimals (negative : bool) (h : Z) :
  two_decimals (fixed2 negative h) = true.
Proof.
  unfold fixed2.
  destruct (unsigned_decimal_fraction (h / 100)
              (digit (h mod 100 / 10)) (digit (h mod 100 mod 10))
              (digit_is_digit _) (digit_is_digit _)) as [Hu (c & rest & Hs & Hc)].
  rewrite Hs in Hu |- *.
  destruct negative; cbn [String.append].
  - exact Hu.
  - unfold two_decimals.
    destruct (Ascii.eqb c "-") eqn:Ec; [|exact Hu].
    apply Ascii.eqb_eq in Ec. subst c. discriminate Hc.
Qed.

Lemma Prim2SF_not_finite (x : float) :
  is_finite x = true ->
  Prim2SF x <> S754_nan /\ forall s, Prim2SF x <> S754_infinity s.
Proof.
  unfold is_finite. intros H. apply negb_true_iff, orb_false_iff in H.
  destruct H as [Hn Hi]. unfold Prim2SF. rewrite Hn, Hi.
  destruct (is_zero x).
  - split; [discriminate | intros s; discriminate].
  - destruct (Z.frexp x) as [r e].
    destruct (shr_fexp prec emax _ _ _) as [shr e'].
    destruct (shr_m shr); split; try discriminate; intros s; discriminate.
Qed.

Lemma format_2f_finite (x : float) :
  is_finite x = true -> two_decimals (format_2f x) = true.
Proof.
  intros H. destruct (Prim2SF_not_finite x H) as [Hn Hi].
  unfold format_2f. destruct (Prim2SF x) as [s|s| |s m e].
  - apply fixed2_two_decimals.
  - exfalso. exact (Hi s eq_refl).
  - exfalso. exact (Hn eq_refl).
  - apply fixed2_two_decimals.
Qed.

(** Whatever the student, the transcript is the header, one row per
    record showing the score and the weight under [.2f], and the two
    totals under [.2f]; when all these numbers are finite, each is
    rendered with exactly two decimal digits. *)
Theorem transcript_two_decimals (self : Student) :
  (forall a, In a (assignments self) ->
     is_finite (score a) = true /\ is_finite (weight a) = true) ->
  is_finite (formative_total self) = true ->
  is_finite (summative_total self) = true ->
  transcript self
  = transcript_header
    ++ map (fun a => (name a ++ tab ++ category_str (type a) ++ tab
                      ++ format_2f (score a) ++ tab ++ format_2f (weight a)
                      ++ nl)%string)
           (assignments self)
    ++ [ (nl ++ "Formative Total: " ++ format_2f (formative_total self) ++ "%" ++ nl)%string;
         ("Summative Total: " ++ format_2f (summative_total self) ++ "%" ++ nl)%string ]
  /\ transcript_numbers_two_decimals self.
Proof.
  intros Hrows Hf Hs. split.
  - unfold transcript. rewrite generate_transcript_spec.
    unfold Py.output_of. cbn [snd]. f_equal. f_equal.
    + apply map_ext. intros a. unfold transcript_row.
      repeat rewrite append_assoc. reflexivity.
    + unfold transcript_totals, formative_line, summative_line.
      repeat rewrite append_assoc. reflexivity.
  - unfold transcript_numbers_two_decimals. split; [|split].
    + intros a Ha. destruct (Hrows a Ha) as [H1 H2].
      split; apply format_2f_finite; assumption.
    + apply format_2f_finite; assumption.
    + apply format_2f_finite; assumption.
Qed.

(** The values that are not finite are rendered without digits. *)
Lemma format_2f_not_finite :
  format_2f nan = "nan"%string
  /\ format_2f infinity = "inf"%string
  /\ format_2f neg_infinity = "-inf"%string
  /\ two_decimals (format_2f nan) = false
  /\ two_decimals (format_2f infinity) = false
  /\ two_decimals (format_2f neg_infinity) = false.
Proof. repeat split; reflexivity. Qed.

(** Outside the documented range of the weights: a weight that is not a
    number passes the validation (no comparison with it is true), and the
    transcript then shows it, and the formative total, as nan. *)
Lemma nan_weight_transcript :
  weights_exceed nan_weight_assignments = false
  /\ In ("Quiz" ++ tab ++ "Formative" ++ tab ++ "80.00" ++ tab ++ "nan" ++ nl)%string
        (stdout (main nan_weight_assignments "ascending"))
  /\ In (nl ++ "Formative Total: nan%" ++ nl)%string
        (stdout (main nan_weight_assignments "ascending"))
  /\ ~ transcript_numbers_two_decimals (scored nan_weight_assignments).
Proof.
  split; [reflexivity|]. split; [|split].
  - vm_compute. tauto.
  - vm_compute. tauto.
  - intros [Hrows _].
    destruct (Hrows (mkAssignment "Quiz" Formative 80 nan)) as [_ Hw].
    + left. reflexivity.
    + vm_compute in Hw. discriminate Hw.
Qed.

(** * Further properties of the script *)

(** ** Comparisons of floats

    The comparisons are those of IEEE 754: every comparison with a value
    that is not a number is false, and on the other values [<=] and [<]
    are the two halves of a total order. *)

Lemma Prim2SF_nan_iff (x : float) : Prim2SF x = S754_nan <-> is_nan x = true.
Proof.
  unfold Prim2SF. destruct (is_nan x).
  - split; reflexivity.
  - split; [|discriminate].
    destruct (is_zero x); [discriminate|].
    destruct (is_infinity x); [discriminate|].
    destruct (Z.frexp x) as [r e].
    destruct (shr_fexp prec emax _ _ _) as [shr e'].
    destruct (shr_m shr); discriminate.
Qed.

Lemma SFcompare_antisym (a b : spec_float) :
  SFcompare b a = option_map CompOpp (SFcompare a b).
Proof.
  destruct a as [sa|sa| |sa ma ea], b as [sb|sb| |sb mb eb];
    cbn [SFcompare option_map];
    try reflexivity;
    try (destruct sa; reflexivity);
    try (destruct sb; reflexivity);
    try (destruct sa, sb; reflexivity).
  destruct sa, sb; cbn [CompOpp]; try reflexivity;
    rewrite (Z.compare_antisym ea eb);
    destruct (Z.compare ea eb) eqn:E; cbn [CompOpp]; try reflexivity;
    rewrite (Pos.compare_cont_antisym ma mb Eq); cbn [CompOpp];
    try reflexivity;
    try (rewrite CompOpp_involutive; reflexivity).
Qed.


(** [y <= x] fails exactly when [x < y] or one of the two is not a
    number. *)
Lemma leb_false_iff (x y : float) :
  (y <=? x) = false
  <-> (x <? y) = true \/ is_nan x = true \/ is_nan y = true.
Proof.
  rewrite ltb_spec, leb_spec. rewrite <- !Prim2SF_nan_iff.
  unfold SFltb, SFleb. rewrite (SFcompare_antisym (Prim2SF x) (Prim2SF y)).
  destruct (Prim2SF x) as [sa|sa| |sa ma ea] eqn:Ex,
           (Prim2SF y) as [sb|sb| |sb mb eb] eqn:Ey;
    try (destruct (SFcompare _ _) as [[ | | ]|] eqn:Ec;
         cbn [option_map CompOpp];
         (split;
          [ intros H; try discriminate H; auto
          | intros [H|[H|H]]; try discriminate H; try reflexivity ])).
  all: try (cbn in Ec; discriminate Ec).
  all: try (cbn; split; [auto | reflexivity]).
Qed.

(** ** What check_progression reports *)

(** X1: whatever the totals, [check_progression] writes one to three
    lines.  The line about the formative score is written exactly when
    formative_total is strictly below 30 or is not a number, the line
    about the summative score exactly when summative_total is strictly
    below 20 or is not a number, and the line that opens the failure
    report exactly when one of the two is written. *)
Theorem check_progression_report (s : Student) :
  (In (formative_below ++ nl)%string (Py.output_of (check_progression s))
   <-> (formative_total s <? 30) = true \/ is_nan (formative_total s) = true)
  /\ (In (summative_below ++ nl)%string (Py.output_of (check_progression s))
      <-> (summative_total s <? 20) = true \/ is_nan (summative_total s) = true)
  /\ (In (not_met ++ nl)%string (Py.output_of (check_progression s))
      <-> In (formative_below ++ nl)%string (Py.output_of (check_progression s))
          \/ In (summative_below ++ nl)%string (Py.output_of (check_progression s)))
  /\ (In (congratulations ++ nl)%string (Py.output_of (check_progression s))
      <-> ~ In (not_met ++ nl)%string (Py.output_of (check_progression s)))
  /\ (1 <= List.length (Py.output_of (check_progression s)) <= 3)%nat.
Proof.
  assert (Hf : (30 <=? formative_total s) = false
               <-> (formative_total s <? 30) = true
                   \/ is_nan (formative_total s) = true).
  { rewrite leb_false_iff. split.
    - intros [H|[H|H]]; [left; exact H | right; exact H | discriminate H].
    - intros [H|H]; [left; exact H | right; left; exact H]. }
  assert (Hs : (20 <=? summative_total s) = false
               <-> (summative_total s <? 20) = true
                   \/ is_nan (summative_total s) = true).
  { rewrite leb_false_iff. split.
    - intros [H|[H|H]]; [left; exact H | right; exact H | discriminate H].
    - intros [H|H]; [left; exact H | right; left; exact H]. }
  rewrite <- Hf, <- Hs.
  rewrite check_progression_cases. unfold Py.output_of. cbn [snd].
  destruct (30 <=? formative_total s), (20 <=? summative_total s);
    vm_compute;
    repeat split; try lia; intros; try reflexivity;
    intuition (try discriminate; try congruence).
Qed.

(** ** What the validation accepts *)


Lemma weights_of_category (c : category) (l : list Assignment) :
  map weight (filter (fun a => category_eqb (type a) c) l)
  = map snd (filter (fun p => category_eqb (fst p) c) (map type_and_weight l)).
Proof.
  induction l as [|a rest IH]; cbn [map filter].
  - reflexivity.
  - unfold type_and_weight at 1. cbn [fst].
    destruct (category_eqb (type a) c); cbn [map snd]; rewrite IH; reflexivity.
Qed.

(** X3: the validation reads only the type and the weight of each record:
    two lists that agree on those, record by record, are both accepted or
    both rejected, whatever their names and scores. *)
Theorem validation_ignores_names_and_scores (l1 l2 : list Assignment) :
  map type_and_weight l1 = map type_and_weight l2 ->
  total_formative_weight l1 = total_formative_weight l2
  /\ total_summative_weight l1 = total_summative_weight l2
  /\ weights_exceed l1 = weights_exceed l2.
Proof.
  intros H.
  assert (Hf : total_formative_weight l1 = total_formative_weight l2).
  { unfold total_formative_weight. rewrite !weights_of_category, H. reflexivity. }
  assert (Hs : total_summative_weight l1 = total_summative_weight l2).
  { unfold total_summative_weight. rewrite !weights_of_category, H. reflexivity. }
  unfold weights_exceed. rewrite Hf, Hs. repeat split.
Qed.

Lemma validation_ignores_names_and_scores_regraded :
  map type_and_weight sample_assignments = map type_and_weight regraded_assignments
  /\ total_formative_weight sample_assignments
     = total_formative_weight regraded_assignments
  /\ total_summative_weight sample_assignments
     = total_summative_weight regraded_assignments
  /\ weights_exceed sample_assignments = weights_exceed regraded_assignments.
Proof.
  split; [reflexivity|].
  apply (validation_ignores_names_and_scores sample_assignments regraded_assignments).
  reflexivity.
Defined.

(** ** calculate_scores on parts of a list *)

Lemma accumulate_app (c : category) (l1 l2 : list Assignment) (t : float) :
  accumulate c (l1 ++ l2) t = accumulate c l2 (accumulate c l1 t).
Proof.
  unfold accumulate. rewrite filter_app, fold_left_app. reflexivity.
Qed.

Lemma scored_spec (l : list Assignment) :
  scored l
  = {| assignments := l;
       formative_total := accumulate Formative l 0;
       summative_total := accumulate Summative l 0 |}.
Proof. unfold scored. rewrite calculate_scores_spec. reflexivity. Qed.

(** X4: scoring a list made of two parts is scoring the first part and
    going on with the second from the totals reached: each total of
    [l1 ++ l2] is the accumulation of the second part's contributions onto
    the total of [l1], and the notices are those of [l1] followed by those
    of [l2]. *)
Theorem calculate_scores_app (l1 l2 : list Assignment) :
  formative_total (scored (l1 ++ l2))
  = accumulate Formative l2 (formative_total (scored l1))
  /\ summative_total (scored (l1 ++ l2))
     = accumulate Summative l2 (summative_total (scored l1))
  /\ Py.output_of (calculate_scores (Student_init (l1 ++ l2)))
     = Py.output_of (calculate_scores (Student_init l1))
       ++ Py.output_of (calculate_scores (Student_init l2)).
Proof.
  rewrite !scored_spec. cbn [formative_total summative_total].
  rewrite !accumulate_app. split; [reflexivity|]. split; [reflexivity|].
  rewrite !calculate_scores_spec. unfold Py.output_of.
  cbn [snd Student_init assignments].
  rewrite filter_app, map_app. reflexivity.
Qed.

(** X5: the notices do not depend on the totals: on any student,
    [calculate_scores] writes the notices it writes for a new student with
    the same records, so a second call on the same student writes the same
    notices again while the totals move on. *)
Theorem notices_ignore_totals (s : Student) :
  Py.output_of (calculate_scores s)
  = Py.output_of (calculate_scores (Student_init (assignments s)))
  /\ Py.output_of (calculate_scores (Py.state_of (calculate_scores s)))
     = Py.output_of (calculate_scores s).
Proof.
  rewrite !calculate_scores_spec. unfold Py.output_of, Py.state_of.
  cbn [fst snd Student_init assignments]. split; reflexivity.
Qed.

(** ** Records of one category only *)

Lemma accumulate_none (c : category) (l : list Assignment) (t : float) :
  (forall a, In a l -> category_eqb (type a) c = false) ->
  accumulate c l t = t.
Proof.
  intros H. unfold accumulate.
  replace (filter (fun a => category_eqb (type a) c) l) with (@nil Assignment).
  - reflexivity.
  - symmetry. induction l as [|a rest IH]; cbn [filter].
    + reflexivity.
    + rewrite (H a (or_introl eq_refl)). apply IH.
      intros b Hb. apply H. right. exact Hb.
Qed.

(** X6: a list without formative records leaves formative_total at 0,
    triggers no resubmission notice, and never passes: the progression
    check reports the formative score as below 30% and does not
    congratulate. *)
Theorem no_formative_records_fail (l : list Assignment) :
  (forall a, In a l -> type a = Summative) ->
  formative_total (scored l) = 0
  /\ Py.output_of (calculate_scores (Student_init l)) = []
  /\ In (formative_below ++ nl)%string (Py.output_of (check_progression (scored l)))
  /\ ~ In (congratulations ++ nl)%string (Py.output_of (check_progression (scored l))).
Proof.
  intros H.
  assert (Hnone : filter eligible l = []).
  { induction l as [|a rest IH]; cbn [filter].
    - reflexivity.
    - unfold eligible at 1. rewrite (H a (or_introl eq_refl)).
      cbn [category_eqb andb].
      apply IH. intros b Hb. apply H. right. exact Hb. }
  assert (Hacc : accumulate Formative l 0 = 0).
  { apply accumulate_none. intros a Ha. rewrite (H a Ha). reflexivity. }
  split; [rewrite scored_spec; exact Hacc|].
  split.
  { rewrite calculate_scores_spec. unfold Py.output_of.
    cbn [snd Student_init assignments]. rewrite Hnone. reflexivity. }
  rewrite check_progression_cases. unfold Py.output_of. cbn [snd].
  rewrite scored_spec. cbn [formative_total summative_total]. rewrite Hacc.
  change (30 <=? 0) with false. cbn [andb].
  destruct (20 <=? accumulate Summative l 0); vm_compute;
    intuition (try discriminate; try congruence).
Qed.

Lemma no_formative_records_fail_summative_only :
  (forall a, In a summative_only_assignments -> type a = Summative)
  /\ formative_total (scored summative_only_assignments) = 0
  /\ Py.output_of (calculate_scores (Student_init summative_only_assignments)) = []
  /\ In (formative_below ++ nl)%string
        (Py.output_of (check_progression (scored summative_only_assignments)))
  /\ ~ In (congratulations ++ nl)%string
          (Py.output_of (check_progression (scored summative_only_assignments))).
Proof.
  assert (H : forall a, In a summative_only_assignments -> type a = Summative).
  { intros a Ha. simpl in Ha. destruct Ha as [<-|[<-|[]]]; reflexivity. }
  split; [exact H|].
  exact (no_formative_records_fail summative_only_assignments H).
Defined.

(** X7: a list without summative records leaves summative_total at 0 and
    never passes: the progression check reports the summative score as
    below 20% and does not congratulate. *)
Theorem no_summative_records_fail (l : list Assignment) :
  (forall a, In a l -> type a = Formative) ->
  summative_total (scored l) = 0
  /\ In (summative_below ++ nl)%string (Py.output_of (check_progression (scored l)))
  /\ ~ In (congratulations ++ nl)%string (Py.output_of (check_progression (scored l))).
Proof.
  intros H.
  assert (Hacc : accumulate Summative l 0 = 0).
  { apply accumulate_none. intros a Ha. rewrite (H a Ha). reflexivity. }
  split; [rewrite scored_spec; exact Hacc|].
  rewrite check_progression_cases. unfold Py.output_of. cbn [snd].
  rewrite scored_spec. cbn [formative_total summative_total]. rewrite Hacc.
  change (20 <=? 0) with false. rewrite andb_false_r.
  destruct (30 <=? accumulate Formative l 0); vm_compute;
    intuition (try discriminate; try congruence).
Qed.

Lemma no_summative_records_fail_formative_only :
  (forall a, In a formative_only_assignments -> type a = Formative)
  /\ summative_total (scored formative_only_assignments) = 0
  /\ In (summative_below ++ nl)%string
        (Py.output_of (check_progression (scored formative_only_assignments)))
  /\ ~ In (congratulations ++ nl)%string
          (Py.output_of (check_progression (scored formative_only_assignments))).
Proof.
  assert (H : forall a, In a formative_only_assignments -> type a = Formative).
  { intros a Ha. simpl in Ha. destruct Ha as [<-|[<-|[]]]; reflexivity. }
  split; [exact H|].
  exact (no_summative_records_fail formative_only_assignments H).
Defined.

(** ** A run that passes the validation *)

(** X8: when the validation passes, the script writes, in this order, the
    resubmission notices, the progression report on the totals just
    computed, the prompt, the transcript header, one row per record in
    list order, and the two totals; it leaves a student holding the list
    and the two category sums, and keeps the answer typed. *)
Theorem accepted_run (l : list Assignment) (answer : string) :
  weights_exceed l = false ->
  stdout (main l answer)
  = map (fun a => (resubmission_notice (name a) ++ nl)%string) (filter eligible l)
    ++ Py.output_of (check_progression (scored l))
    ++ [order_prompt]
    ++ transcript_header
    ++ map (fun a => (transcript_row a ++ nl)%string) l
    ++ transcript_totals (scored l)
  /\ g_student (main l answer) = Some (scored l)
  /\ scored l
     = {| assignments := l;
          formative_total := category_sum Formative l;
          summative_total := category_sum Summative l |}
  /\ g_order (main l answer) = Some answer
  /\ g_assignments (main l answer) = l.
Proof.
  intros Hw. rewrite (main_accepts l answer Hw).
  cbn [stdout g_student g_order g_assignments].
  split; [|repeat split; apply scored_spec].
  rewrite pipeline_spec. unfold Py.output_of at 1. cbn [snd].
  fold (scored l). unfold transcript. rewrite generate_transcript_spec.
  rewrite calculate_scores_spec. unfold Py.output_of at 1 3.
  cbn [snd Student_init assignments].
  rewrite scored_spec at 2. cbn [assignments]. reflexivity.
Qed.

Lemma accepted_run_sample :
  weights_exceed sample_assignments = false
  /\ stdout (main sample_assignments "descending")
     = map (fun a => (resubmission_notice (name a) ++ nl)%string)
           (filter eligible sample_assignments)
       ++ Py.output_of (check_progression (scored sample_assignments))
       ++ [order_prompt]
       ++ transcript_header
       ++ map (fun a => (transcript_row a ++ nl)%string) sample_assignments
       ++ transcript_totals (scored sample_assignments)
  /\ g_student (main sample_assignments "descending")
     = Some (scored sample_assignments)
  /\ scored sample_assignments
     = {| assignments := sample_assignments;
          formative_total := category_sum Formative sample_assignments;
          summative_total := category_sum Summative sample_assignments |}
  /\ g_order (main sample_assignments "descending") = Some "descending"%string
  /\ g_assignments (main sample_assignments "descending") = sample_assignments.
Proof.
  split; [reflexivity|].
  apply (accepted_run sample_assignments "descending"). reflexivity.
Defined.

(** ** The prompt *)

Lemma ends_with_nl_append (x : string) : ends_with_nl (x ++ nl)%string = true.
Proof.
  induction x as [|c x IH].
  - reflexivity.
  - cbn [String.append]. destruct x as [|d x].
    + reflexivity.
    + cbn [String.append] in IH |- *. exact IH.
Qed.

Lemma prompt_not_among_lines (out : list string) :
  Forall (fun c => ends_with_nl c = true) out ->
  count_occ string_dec out order_prompt = 0%nat.
Proof.
  intros H. apply count_occ_not_In. intros Hin.
  rewrite Forall_forall in H. specialize (H _ Hin).
  vm_compute in H. discriminate H.
Qed.

Lemma printed_lines_end (A : Type) (f : A -> string) (l : list A) :
  Forall (fun c => ends_with_nl c = true) (map (fun a => (f a ++ nl)%string) l).
Proof.
  induction l as [|a rest IH]; cbn [map]; constructor.
  - apply ends_with_nl_append.
  - exact IH.
Qed.

Lemma check_progression_lines_end (s : Student) :
  Forall (fun c => ends_with_nl c = true) (Py.output_of (check_progression s)).
Proof.
  rewrite check_progression_cases. unfold Py.output_of. cbn [snd].
  destruct (30 <=? formative_total s), (20 <=? summative_total s);
    cbn [andb app]; repeat constructor.
Qed.

Lemma transcript_lines_end (s : Student) :
  Forall (fun c => ends_with_nl c = true) (transcript s).
Proof.
  unfold transcript. rewrite generate_transcript_spec.
  unfold Py.output_of. cbn [snd].
  apply Forall_app; split; [repeat constructor|].
  apply Forall_app; split.
  - apply printed_lines_end.
  - unfold transcript_totals. repeat constructor; apply ends_with_nl_append.
Qed.

(** X9: the prompt is written exactly once in a run that passes the
    validation, and never in a run that fails it. *)
Theorem prompt_written_once (l : list Assignment) (answer : string) :
  count_occ string_dec (stdout (main l answer)) order_prompt
  = if weights_exceed l then 0%nat else 1%nat.
Proof.
  destruct (weights_exceed l) eqn:Hw.
  - rewrite (main_rejects l answer Hw). cbn [stdout].
    apply prompt_not_among_lines. repeat constructor.
  - rewrite (main_accepts l answer Hw). cbn [stdout].
    rewrite pipeline_spec. unfold Py.output_of at 1. cbn [snd].
    rewrite !count_occ_app.
    rewrite (prompt_not_among_lines _ (check_progression_lines_end _)).
    rewrite (prompt_not_among_lines _ (transcript_lines_end _)).
    rewrite calculate_scores_spec. unfold Py.output_of. cbn [snd].
    rewrite (prompt_not_among_lines _ (printed_lines_end _ _ _)).
    cbn [count_occ]. destruct (string_dec order_prompt order_prompt) as [_|Hne].
    + reflexivity.
    + exfalso. apply Hne. reflexivity.
Qed.

(** ** The empty list *)

(** X10: with no record at all the validation passes (both weight sums
    are 0), no notice is written, the student fails on both thresholds,
    and the transcript has no row and shows both totals as 0.00. *)
Theorem empty_run (answer : string) :
  main [] answer
  = {| g_assignments := [];
       g_student := Some (Student_init []);
       g_order := Some answer;
       stdout :=
         [ (not_met ++ nl)%string;
           (formative_below ++ nl)%string;
           (summative_below ++ nl)%string;
           order_prompt ]
         ++ transcript_header
         ++ [ (nl ++ "Formative Total: 0.00%" ++ nl)%string;
              ("Summative Total: 0.00%" ++ nl)%string ] |}.
Proof. reflexivity. Qed.

(** ** generate_transcript *)

(** X11: [generate_transcript] only reads the student: it leaves the
    assignment list and both totals as they were, so printing the
    transcript a second time writes the same text again, and it writes
    three header lines, one line per record and two lines of totals. *)
Theorem generate_transcript_frame (s : Student) :
  Py.state_of (generate_transcript s) = s
  /\ Py.output_of ((generate_transcript ;;; generate_transcript) s)
     = transcript s ++ transcript s
  /\ List.length (transcript s) = (3 + List.length (assignments s) + 2)%nat.
Proof.
  unfold transcript, Py.bind. rewrite generate_transcript_spec.
  unfold Py.state_of, Py.output_of. cbn [fst snd].
  rewrite generate_transcript_spec. cbn [snd].
  split; [reflexivity|]. split; [reflexivity|].
  rewrite !length_app, length_map. cbn [List.length transcript_header transcript_totals].
  lia.
Qed.

(** * Scores and weights of the documented range

    With every score and weight between 0 and 100, each contribution
    (score/100)*weight is a non-negative number below [2 ^ 10], and a total
    never leaves the finite non-negative numbers: a total so large that its
    last place is worth more than twice a contribution absorbs it, and a
    smaller one stays far below the largest float.  The facts about the
    operations are read off their IEEE 754 specification. *)

Section FloatBounds.

Local Open Scope Z_scope.

(** [digits2_pos p] is the number of binary digits of [p]. *)
Lemma digits2_pos_bounds (p : positive) :
  2 ^ (Zpos (digits2_pos p) - 1) <= Zpos p < 2 ^ Zpos (digits2_pos p).
Proof.
  induction p as [p IH|p IH|]; cbn [digits2_pos].
  - rewrite Pos2Z.inj_succ.
    replace (Z.succ (Zpos (digits2_pos p)) - 1) with (Z.succ (Zpos (digits2_pos p) - 1)) by lia.
    rewrite !Z.pow_succ_r by lia. lia.
  - rewrite Pos2Z.inj_succ.
    replace (Z.succ (Zpos (digits2_pos p)) - 1) with (Z.succ (Zpos (digits2_pos p) - 1)) by lia.
    rewrite !Z.pow_succ_r by lia. lia.
  - cbn. lia.
Qed.

Lemma Zdigits2_nonneg (m : Z) : 0 <= Zdigits2 m.
Proof. destruct m; cbn; lia. Qed.

Lemma Zdigits2_lt (m : Z) : 0 <= m -> m < 2 ^ Zdigits2 m.
Proof.
  destruct m as [|p|p]; intros H; cbn [Zdigits2].
  - cbn. lia.
  - apply digits2_pos_bounds.
  - lia.
Qed.

Lemma Zdigits2_ge (m : Z) : 0 < m -> 2 ^ (Zdigits2 m - 1) <= m.
Proof.
  destruct m as [|p|p]; intros H; cbn [Zdigits2]; try lia.
  apply digits2_pos_bounds.
Qed.

(** A number below [2 ^ k] has at most [k] digits. *)
Lemma Zdigits2_le (m k : Z) : 0 <= m -> 0 <= k -> m < 2 ^ k -> Zdigits2 m <= k.
Proof.
  intros Hm Hk Hlt.
  destruct (Z.eq_dec m 0) as [->|Hne]; [cbn; lia|].
  pose proof (Zdigits2_ge m ltac:(lia)) as Hge.
  destruct (Z_le_gt_dec (Zdigits2 m) k) as [|Hgt]; [assumption|exfalso].
  assert (2 ^ k <= 2 ^ (Zdigits2 m - 1)) by (apply Z.pow_le_mono_r; lia).
  lia.
Qed.

(** A number from [2 ^ (k - 1)] on has at least [k] digits. *)
Lemma Zdigits2_ge_intro (m k : Z) : 0 <= m -> 2 ^ (k - 1) <= m -> 1 <= k -> k <= Zdigits2 m.
Proof.
  intros Hm Hge Hk.
  pose proof (Zdigits2_lt m Hm) as Hlt.
  pose proof (Zdigits2_nonneg m).
  destruct (Z_le_gt_dec k (Zdigits2 m)) as [|Hgt]; [assumption|exfalso].
  assert (2 ^ Zdigits2 m <= 2 ^ (k - 1)) by (apply Z.pow_le_mono_r; lia).
  lia.
Qed.

(** One shift to the right halves the mantissa and keeps the bit that
    leaves it. *)
Lemma shr_1_spec (m : Z) (r s : bool) :
  0 <= m ->
  shr_1 (Build_shr_record m r s) = Build_shr_record (m / 2) (Z.odd m) (r || s).
Proof.
  intros Hm. destruct m as [|p|p]; [reflexivity| |lia].
  destruct p as [p|p|]; cbn [shr_1].
  - f_equal. rewrite Pos2Z.inj_xI.
    apply (Z.div_unique_pos (2 * Zpos p + 1) 2 (Zpos p) 1); lia.
  - f_equal. rewrite Pos2Z.inj_xO.
    apply (Z.div_unique_pos (2 * Zpos p) 2 (Zpos p) 0); lia.
  - reflexivity.
Qed.

Lemma iter_pos_nat {A} (f : A -> A) (p : positive) (x : A) :
  iter_pos f p x = Nat.iter (Pos.to_nat p) f x.
Proof.
  revert x. induction p as [p IH|p IH|]; intros x; cbn [iter_pos].
  - rewrite !IH. rewrite Pos2Nat.inj_xI.
    replace (S (2 * Pos.to_nat p)) with (Pos.to_nat p + (Pos.to_nat p + 1))%nat by lia.
    rewrite !Nat.iter_add. cbn. reflexivity.
  - rewrite !IH. rewrite Pos2Nat.inj_xO.
    replace (2 * Pos.to_nat p)%nat with (Pos.to_nat p + Pos.to_nat p)%nat by lia.
    rewrite Nat.iter_add. reflexivity.
  - reflexivity.
Qed.

(** The mantissa after [n] shifts. *)
Lemma iter_shr_m (n : nat) : forall m r s,
  0 <= m ->
  shr_m (Nat.iter n shr_1 (Build_shr_record m r s)) = m / 2 ^ Z.of_nat n.
Proof.
  induction n as [|n IH]; intros m r s Hm.
  - cbn. rewrite Z.div_1_r. reflexivity.
  - rewrite Nat.iter_succ_r. rewrite shr_1_spec by assumption.
    rewrite IH by (apply Z.div_pos; lia).
    rewrite Nat2Z.inj_succ, Z.pow_succ_r by lia.
    rewrite Z.div_div by (try lia; apply Z.pow_pos_nonneg; lia). reflexivity.
Qed.

(** Shifting out a low part that is below half of the last place kept:
    the round bit is clear, and the sticky bit tells whether the low part
    was zero. *)
Lemma iter_shr_low (n : nat) : forall a b r s,
  0 <= a -> 0 <= b -> b < 2 ^ Z.of_nat n ->
  Nat.iter (S n) shr_1 (Build_shr_record (a * 2 ^ Z.of_nat (S n) + b) r s)
  = Build_shr_record a false (r || s || negb (b =? 0)).
Proof.
  induction n as [|n IH]; intros a b r s Ha Hb Hlt.
  - cbn in Hlt. assert (b = 0) by lia. subst b.
    cbn [Nat.iter]. change (2 ^ Z.of_nat 1) with 2. rewrite Z.add_0_r.
    rewrite shr_1_spec by lia.
    rewrite Z.div_mul by lia. rewrite Z.mul_comm, Z.odd_mul. cbn.
    rewrite orb_false_r. reflexivity.
  - rewrite Nat.iter_succ_r.
    assert (H2 : 2 ^ Z.of_nat (S (S n)) = 2 * 2 ^ Z.of_nat (S n)).
    { rewrite (Nat2Z.inj_succ (S n)), Z.pow_succ_r by lia. reflexivity. }
    assert (H2' : 2 ^ Z.of_nat (S n) = 2 * 2 ^ Z.of_nat n).
    { rewrite (Nat2Z.inj_succ n), Z.pow_succ_r by lia. reflexivity. }
    assert (Hp : 0 < 2 ^ Z.of_nat n) by (apply Z.pow_pos_nonneg; lia).
    assert (Hp' : 0 < 2 ^ Z.of_nat (S n)) by (apply Z.pow_pos_nonneg; lia).
    rewrite shr_1_spec by nia.
    assert (Hdiv : (a * 2 ^ Z.of_nat (S (S n)) + b) / 2 = a * 2 ^ Z.of_nat (S n) + b / 2).
    { rewrite H2. replace (a * (2 * 2 ^ Z.of_nat (S n)) + b) with (b + (a * 2 ^ Z.of_nat (S n)) * 2) by lia.
      rewrite Z.div_add by lia. lia. }
    assert (Hodd : Z.odd (a * 2 ^ Z.of_nat (S (S n)) + b) = Z.odd b).
    { rewrite H2. replace (a * (2 * 2 ^ Z.of_nat (S n)) + b) with (b + 2 * (a * 2 ^ Z.of_nat (S n))) by lia.
      rewrite Z.odd_add_mul_2. reflexivity. }
    rewrite Hdiv, Hodd.
    rewrite IH; try lia.
    + f_equal.
      pose proof (Z.div_mod b 2 ltac:(lia)) as Hdm.
      pose proof (Z.mod_pos_bound b 2 ltac:(lia)) as Hmb.
      rewrite Zmod_odd in Hdm, Hmb.
      destruct (Z.odd b), r, s; cbn; try reflexivity;
        destruct (Z.eqb_spec (b / 2) 0), (Z.eqb_spec b 0); cbn; try reflexivity; lia.
    + apply Z.div_pos; lia.
    + apply Z.div_lt_upper_bound; lia.
Qed.

Lemma fexp_eq (e : Z) : fexp prec emax e = Z.max (e - 53) (-1074).
Proof. reflexivity. Qed.

Lemma shr_m_of_loc (m : Z) (l : location) : shr_m (shr_record_of_loc m l) = m.
Proof. destruct l as [|[]]; reflexivity. Qed.

Lemma shr_record_eta (m : Z) (l : location) :
  exists r s, shr_record_of_loc m l = Build_shr_record m r s.
Proof. destruct l as [|[]]; eexists; eexists; reflexivity. Qed.

(** What [shr_fexp] returns. *)
Lemma shr_fexp_cases (m e : Z) (l : location) :
  0 <= m ->
  let n := fexp prec emax (Zdigits2 m + e) - e in
  (n <= 0 /\ shr_fexp prec emax m e l = (shr_record_of_loc m l, e))
  \/ (0 < n
      /\ snd (shr_fexp prec emax m e l) = fexp prec emax (Zdigits2 m + e)
      /\ shr_m (fst (shr_fexp prec emax m e l)) = m / 2 ^ n).
Proof.
  intros Hm n. unfold shr_fexp. fold n.
  destruct n as [|p|p] eqn:En.
  - left. split; [lia | reflexivity].
  - right. split; [lia|]. cbn [shr fst snd]. split; [lia|].
    rewrite iter_pos_nat.
    destruct (shr_record_eta m l) as (r & s & ->).
    rewrite iter_shr_m by assumption. rewrite positive_nat_Z. reflexivity.
  - left. split; [lia | reflexivity].
Qed.

Lemma Zdigits2_div (m n : Z) :
  0 <= m -> 0 <= n -> m / 2 ^ n <> 0 ->
  Zdigits2 (m / 2 ^ n) + n <= Zdigits2 m.
Proof.
  intros Hm Hn Hq.
  assert (Hp : 0 < 2 ^ n) by (apply Z.pow_pos_nonneg; lia).
  assert (Hq0 : 0 <= m / 2 ^ n) by (apply Z.div_pos; lia).
  assert (Hge : 2 ^ n <= m).
  { destruct (Z_le_gt_dec (2 ^ n) m); [assumption|].
    rewrite Z.div_small in Hq by lia. congruence. }
  assert (Hd : n + 1 <= Zdigits2 m).
  { apply Zdigits2_ge_intro; try lia. replace (n + 1 - 1) with n by lia. exact Hge. }
  assert (Zdigits2 (m / 2 ^ n) <= Zdigits2 m - n); [|lia].
  apply Zdigits2_le; try lia.
  apply Z.div_lt_upper_bound; [lia|].
  rewrite <- Z.pow_add_r by lia.
  replace (n + (Zdigits2 m - n)) with (Zdigits2 m) by lia.
  apply Zdigits2_lt. assumption.
Qed.

(** [shr_fexp] does not raise the magnitude. *)
Lemma shr_fexp_bound (m e : Z) (l : location) :
  0 <= m ->
  0 <= shr_m (fst (shr_fexp prec emax m e l))
  /\ (snd (shr_fexp prec emax m e l) = e
      \/ snd (shr_fexp prec emax m e l) = fexp prec emax (Zdigits2 m + e))
  /\ (shr_m (fst (shr_fexp prec emax m e l)) = 0
      \/ Zdigits2 (shr_m (fst (shr_fexp prec emax m e l)))
         + snd (shr_fexp prec emax m e l) <= Zdigits2 m + e).
Proof.
  intros Hm.
  destruct (shr_fexp_cases m e l Hm) as [[Hn Heq]|(Hn & He & Hq)].
  - rewrite Heq. cbn [fst snd]. rewrite shr_m_of_loc.
    split; [assumption|]. split; [left; reflexivity|]. right. lia.
  - rewrite He, Hq.
    set (n := fexp prec emax (Zdigits2 m + e) - e) in *.
    assert (Hp : 0 < 2 ^ n) by (apply Z.pow_pos_nonneg; lia).
    split; [apply Z.div_pos; lia|]. split; [right; reflexivity|].
    destruct (Z.eq_dec (m / 2 ^ n) 0) as [H0|H0]; [left; assumption|right].
    pose proof (Zdigits2_div m n Hm ltac:(lia) H0). lia.
Qed.

Lemma round_nearest_even_bound (m : Z) (l : location) :
  0 <= m -> m <= round_nearest_even m l <= m + 1.
Proof.
  intros Hm. destruct l as [|[]]; cbn [round_nearest_even]; try lia.
  destruct (Z.even m); lia.
Qed.

Lemma Zdigits2_succ (m m' : Z) :
  0 <= m -> m <= m' <= m + 1 -> Zdigits2 m' <= Zdigits2 m + 1.
Proof.
  intros Hm Hb. pose proof (Zdigits2_nonneg m).
  apply Zdigits2_le; try lia.
  pose proof (Zdigits2_lt m Hm).
  rewrite Z.pow_add_r by lia. change (2 ^ 1) with 2. lia.
Qed.

(** Rounding keeps a small value small, and finite. *)
Lemma binary_round_aux_bound (sx : bool) (m e : Z) (l : location) (K : Z) :
  0 <= m -> Zdigits2 m + e <= K -> -1074 <= K <= 971 ->
  match binary_round_aux prec emax sx m e l with
  | S754_zero s => s = sx
  | S754_finite s m' e' => s = sx /\ Zpos (digits2_pos m') + e' <= K + 1
  | _ => False
  end.
Proof.
  intros Hm HD HK. unfold binary_round_aux.
  pose proof (shr_fexp_bound m e l Hm) as (H1m & H1e & H1d).
  pose proof (Zdigits2_nonneg m) as Hdm.
  destruct (shr_fexp prec emax m e l) as [mrs1 e1]. cbn [fst snd] in *.
  set (m2 := round_nearest_even (shr_m mrs1) (loc_of_shr_record mrs1)).
  pose proof (round_nearest_even_bound (shr_m mrs1) (loc_of_shr_record mrs1) H1m) as H2.
  fold m2 in H2.
  assert (He1 : e1 <= K).
  { destruct H1e as [->| ->]; [lia|]. rewrite fexp_eq. lia. }
  assert (Hm2 : Zdigits2 m2 + e1 <= K + 1).
  { destruct H1d as [H0|Hd].
    - rewrite H0 in H2.
      assert (Zdigits2 m2 <= 1); [|lia].
      apply Zdigits2_le; lia.
    - pose proof (Zdigits2_succ (shr_m mrs1) m2 H1m H2). lia. }
  pose proof (shr_fexp_bound m2 e1 loc_Exact ltac:(lia)) as (H3m & H3e & H3d).
  destruct (shr_fexp prec emax m2 e1 loc_Exact) as [mrs3 e3]. cbn [fst snd] in *.
  assert (He3 : e3 <= K).
  { destruct H3e as [->| ->]; [lia|]. rewrite fexp_eq. lia. }
  destruct (shr_m mrs3) as [|p|p] eqn:Em3.
  - reflexivity.
  - replace (e3 <=? emax - prec) with true.
    + split; [reflexivity|]. destruct H3d as [H0|Hd]; [discriminate H0|].
      cbn [Zdigits2] in Hd. lia.
    + symmetry. apply Z.leb_le. change (emax - prec) with 971. lia.
  - lia.
Qed.

Lemma nonneg_below_finite (K : Z) (f : spec_float) :
  nonneg_below K f -> nonneg_finite f.
Proof. destruct f as [s|s| |[] m e]; cbn; trivial. Qed.

Lemma nonneg_below_weaken (K K' : Z) (f : spec_float) :
  K <= K' -> nonneg_below K f -> nonneg_below K' f.
Proof. intros HK. destruct f as [s|s| |[] m e]; cbn [nonneg_below]; trivial. lia. Qed.

Lemma round_to_nonneg_below (m e : Z) (l : location) (K : Z) :
  0 <= m -> Zdigits2 m + e <= K -> -1074 <= K <= 971 ->
  nonneg_below (K + 1) (binary_round_aux prec emax false m e l).
Proof.
  intros Hm HD HK.
  pose proof (binary_round_aux_bound false m e l K Hm HD HK) as H.
  destruct (binary_round_aux prec emax false m e l) as [s|s| |s m' e']; cbn.
  - trivial.
  - exact H.
  - exact H.
  - destruct H as [-> H]. exact H.
Qed.

Lemma Zdigits2_mul (a b : positive) :
  Zdigits2 (Zpos (a * b)) <= Zpos (digits2_pos a) + Zpos (digits2_pos b).
Proof.
  apply Zdigits2_le; try lia.
  pose proof (digits2_pos_bounds a) as [_ Ha].
  pose proof (digits2_pos_bounds b) as [_ Hb].
  rewrite Z.pow_add_r by lia. rewrite Pos2Z.inj_mul.
  apply Z.mul_lt_mono_nonneg; lia.
Qed.

Lemma SFmul_nonneg_below (Kx Ky : Z) (x y : spec_float) :
  nonneg_below Kx x -> nonneg_below Ky y ->
  -1074 <= Kx + Ky <= 971 ->
  nonneg_below (Kx + Ky + 1) (SFmul prec emax x y).
Proof.
  intros Hx Hy HK.
  destruct x as [sx|sx| |[] mx ex], y as [sy|sy| |[] my ey];
    cbn [nonneg_below] in Hx, Hy; try contradiction; cbn [SFmul]; try exact I.
  cbn [xorb]. apply round_to_nonneg_below; try lia.
  pose proof (Zdigits2_mul mx my). lia.
Qed.

(** Division by a positive finite number. *)
Lemma SFdiv_nonneg_below (Kx K : Z) (x : spec_float) (my : positive) (ey : Z) :
  nonneg_below Kx x ->
  Kx - (Zpos (digits2_pos my) + ey) + 1 <= K ->
  -1074 <= K <= 971 ->
  nonneg_below (K + 1) (SFdiv prec emax x (S754_finite false my ey)).
Proof.
  intros Hx HKx HK.
  destruct x as [sx|sx| |[] mx ex]; cbn [nonneg_below] in Hx; try contradiction; cbn [SFdiv].
  - exact I.
  - cbn [xorb]. unfold SFdiv_core_binary.
    set (dx := Zdigits2 (Zpos mx)). set (dy := Zdigits2 (Zpos my)).
    set (e' := Z.min (fexp prec emax (dx + ex - (dy + ey))) (ex - ey)).
    set (s := ex - ey - e').
    assert (Hs : 0 <= s) by (unfold s, e'; lia).
    set (m' := match s with Zpos _ => Z.shiftl (Zpos mx) s | Z0 => Zpos mx | Zneg _ => 0 end).
    assert (Hm' : m' = Zpos mx * 2 ^ s).
    { unfold m'. destruct s as [|p|p] eqn:Es.
      - cbn. lia.
      - rewrite Z.shiftl_mul_pow2 by lia. reflexivity.
      - lia. }
    destruct (Z.div_eucl m' (Zpos my)) as [q r] eqn:Ediv.
    assert (Hq : q = m' / Zpos my) by (unfold Z.div; rewrite Ediv; reflexivity).
    assert (Hp : 0 < 2 ^ s) by (apply Z.pow_pos_nonneg; lia).
    assert (Hq0 : 0 <= q) by (rewrite Hq; apply Z.div_pos; lia).
    apply round_to_nonneg_below; try lia.
    pose proof (digits2_pos_bounds mx) as [_ Hmx].
    pose proof (digits2_pos_bounds my) as [Hmy _].
    change (Zpos (digits2_pos mx)) with dx in *.
    change (Zpos (digits2_pos my)) with dy in *.
    assert (Hdx : 1 <= dx) by (unfold dx; cbn; lia).
    assert (Hdy : 1 <= dy) by (unfold dy; cbn; lia).
    destruct (Z.eq_dec q 0) as [->|Hne].
    + cbn [Zdigits2]. unfold e'. rewrite fexp_eq. lia.
    + assert (Hqm : q * Zpos my <= m').
      { rewrite Hq. rewrite Z.mul_comm. apply Z.mul_div_le. lia. }
      assert (Hlt : m' < 2 ^ (dx + s)).
      { rewrite Hm', Z.pow_add_r by lia. nia. }
      assert (Hpos : 0 < 2 ^ (dy - 1)) by (apply Z.pow_pos_nonneg; lia).
      assert (Hexp : dy - 1 < dx + s).
      { destruct (Z_lt_ge_dec (dy - 1) (dx + s)); [assumption|exfalso].
        assert (2 ^ (dx + s) <= 2 ^ (dy - 1)) by (apply Z.pow_le_mono_r; lia).
        nia. }
      assert (Hqd : Zdigits2 q <= dx + s - dy + 1).
      { apply Zdigits2_le; try lia.
        assert (Hsplit : 2 ^ (dx + s) = 2 ^ (dx + s - dy + 1) * 2 ^ (dy - 1)).
        { rewrite <- Z.pow_add_r by lia. f_equal. lia. }
        assert (Hpos2 : 0 < 2 ^ (dx + s - dy + 1)) by (apply Z.pow_pos_nonneg; lia).
        nia. }
      unfold s in Hqd. lia.
Qed.

Lemma iter_xO_value (m d : positive) :
  Zpos (Pos.iter xO m d) = Zpos m * 2 ^ Zpos d.
Proof.
  induction d as [|d IH] using Pos.peano_ind.
  - cbn. lia.
  - rewrite Pos.iter_succ. rewrite Pos2Z.inj_xO, IH.
    rewrite Pos2Z.inj_succ, Z.pow_succ_r by lia. lia.
Qed.

Lemma shl_align_le (mx : positive) (ex ex' : Z) :
  ex' <= ex ->
  Zpos (fst (shl_align mx ex ex')) = Zpos mx * 2 ^ (ex - ex')
  /\ snd (shl_align mx ex ex') = ex'.
Proof.
  intros H. unfold shl_align.
  destruct (ex' - ex) as [|d|d] eqn:E; cbn [fst snd].
  - assert (ex = ex') by lia. subst. rewrite Z.sub_diag. cbn. lia.
  - lia.
  - rewrite iter_xO_value. split; [|reflexivity].
    f_equal. f_equal. lia.
Qed.

Lemma shl_align_ge (mx : positive) (ex ex' : Z) :
  ex <= ex' -> shl_align mx ex ex' = (mx, ex).
Proof.
  intros H. unfold shl_align.
  destruct (ex' - ex) as [|d|d] eqn:E; try reflexivity. lia.
Qed.

Lemma Zdigits2_shift (m : positive) (k : Z) :
  0 <= k -> Zdigits2 (Zpos m * 2 ^ k) = Zpos (digits2_pos m) + k.
Proof.
  intros Hk.
  pose proof (digits2_pos_bounds m) as [Hlo Hhi].
  assert (Hp : 0 < 2 ^ k) by (apply Z.pow_pos_nonneg; lia).
  apply Z.le_antisymm.
  - apply Zdigits2_le; try lia. rewrite Z.pow_add_r by lia. nia.
  - apply Zdigits2_ge_intro; try lia.
    replace (Zpos (digits2_pos m) + k - 1) with (Zpos (digits2_pos m) - 1 + k) by lia.
    rewrite Z.pow_add_r by lia. nia.
Qed.

(** [shl_align] keeps the magnitude. *)
Lemma shl_align_mag (mx : positive) (ex ex' : Z) :
  Zpos (digits2_pos (fst (shl_align mx ex ex'))) + snd (shl_align mx ex ex')
  = Zpos (digits2_pos mx) + ex.
Proof.
  destruct (Z_le_gt_dec ex' ex) as [H|H].
  - destruct (shl_align_le mx ex ex' H) as [Hv He]. rewrite He.
    change (Zpos (digits2_pos (fst (shl_align mx ex ex'))))
      with (Zdigits2 (Zpos (fst (shl_align mx ex ex')))).
    rewrite Hv, Zdigits2_shift by lia. lia.
  - rewrite shl_align_ge by lia. reflexivity.
Qed.

Lemma binary_round_nonneg_below (m : positive) (e K : Z) :
  Zpos (digits2_pos m) + e <= K -> -1074 <= K <= 971 ->
  nonneg_below (K + 1) (binary_round prec emax false m e).
Proof.
  intros HD HK. unfold binary_round.
  pose proof (shl_align_mag m e (fexp prec emax (Zpos (digits2_pos m) + e))) as Hmag.
  destruct (shl_align m e (fexp prec emax (Zpos (digits2_pos m) + e))) as [mz ez].
  cbn [fst snd] in Hmag.
  apply round_to_nonneg_below; try lia.
  cbn [Zdigits2]. lia.
Qed.

(** The sum of two small non-negative numbers is small. *)
Lemma SFadd_small (K : Z) (m1 m2 : positive) (e1 e2 : Z) :
  Zpos (digits2_pos m1) + e1 <= K ->
  Zpos (digits2_pos m2) + e2 <= K ->
  -1074 <= K + 1 <= 971 ->
  nonneg_below (K + 2)
    (SFadd prec emax (S754_finite false m1 e1) (S754_finite false m2 e2)).
Proof.
  intros H1 H2 HK. cbn [SFadd cond_Zopp].
  set (ez := Z.min e1 e2).
  destruct (shl_align_le m1 e1 ez ltac:(lia)) as [Hv1 _].
  destruct (shl_align_le m2 e2 ez ltac:(lia)) as [Hv2 _].
  set (a := fst (shl_align m1 e1 ez)) in *.
  set (b := fst (shl_align m2 e2 ez)) in *.
  change (Zpos a + Zpos b) with (Zpos (a + b)). cbn [binary_normalize].
  replace (K + 2) with (K + 1 + 1) by lia.
  apply binary_round_nonneg_below; try lia.
  assert (Hd : Zdigits2 (Zpos (a + b)) <= K + 1 - ez); [|cbn [Zdigits2] in Hd; lia].
  pose proof (digits2_pos_bounds m1) as [_ Hb1].
  pose proof (digits2_pos_bounds m2) as [_ Hb2].
  assert (Hk : 0 <= K - ez) by lia.
  apply Zdigits2_le; try lia.
  rewrite Pos2Z.inj_add, Hv1, Hv2.
  replace (K + 1 - ez) with (Z.succ (K - ez)) by lia.
  rewrite Z.pow_succ_r by lia.
  assert (Zpos m1 * 2 ^ (e1 - ez) < 2 ^ (K - ez)).
  { apply Z.lt_le_trans with (2 ^ (Zpos (digits2_pos m1) + (e1 - ez))).
    - rewrite Z.pow_add_r by lia.
      assert (0 < 2 ^ (e1 - ez)) by (apply Z.pow_pos_nonneg; lia). nia.
    - apply Z.pow_le_mono_r; lia. }
  assert (Zpos m2 * 2 ^ (e2 - ez) < 2 ^ (K - ez)).
  { apply Z.lt_le_trans with (2 ^ (Zpos (digits2_pos m2) + (e2 - ez))).
    - rewrite Z.pow_add_r by lia.
      assert (0 < 2 ^ (e2 - ez)) by (apply Z.pow_pos_nonneg; lia). nia.
    - apply Z.pow_le_mono_r; lia. }
  lia.
Qed.

(** A number below half a unit in the last place is absorbed. *)
Lemma SFadd_absorb (m1 m2 : positive) (e1 e2 : Z) :
  fexp prec emax (Zpos (digits2_pos m1) + e1) = e1 ->
  e1 <= 971 ->
  Zpos (digits2_pos m2) + e2 <= e1 - 1 ->
  SFadd prec emax (S754_finite false m1 e1) (S754_finite false m2 e2)
  = S754_finite false m1 e1.
Proof.
  intros Hcan Hmax Hsmall. cbn [SFadd cond_Zopp].
  assert (Hd2 : 1 <= Zpos (digits2_pos m2)) by lia.
  assert (Hmin : Z.min e1 e2 = e2) by lia. rewrite Hmin.
  destruct (shl_align_le m1 e1 e2 ltac:(lia)) as [Hv1 _].
  rewrite (shl_align_ge m2 e2 e2) by lia. cbn [fst].
  set (a := fst (shl_align m1 e1 e2)) in *.
  change (Zpos a + Zpos m2) with (Zpos (a + m2)). cbn [binary_normalize].
  set (n := e1 - e2) in *.
  assert (Hn : 2 <= n) by (unfold n; lia).
  pose proof (digits2_pos_bounds m1) as [Hlo1 Hhi1].
  pose proof (digits2_pos_bounds m2) as [_ Hhi2].
  assert (Hp : 0 < 2 ^ n) by (apply Z.pow_pos_nonneg; lia).
  assert (Hm2 : Zpos m2 < 2 ^ (n - 1)).
  { apply Z.lt_le_trans with (2 ^ Zpos (digits2_pos m2)); [assumption|].
    apply Z.pow_le_mono_r; unfold n; lia. }
  assert (Hhalf : 2 ^ n = 2 * 2 ^ (n - 1)).
  { replace n with (Z.succ (n - 1)) at 1 by lia. rewrite Z.pow_succ_r by lia. reflexivity. }
  assert (Hsum : Zpos (a + m2) = Zpos m1 * 2 ^ n + Zpos m2).
  { rewrite Pos2Z.inj_add, Hv1. reflexivity. }
  assert (Hdig : Zpos (digits2_pos (a + m2)) = Zpos (digits2_pos m1) + n).
  { change (Zpos (digits2_pos (a + m2))) with (Zdigits2 (Zpos (a + m2))).
    apply Z.le_antisymm.
    - apply Zdigits2_le; try lia. rewrite Hsum, Z.pow_add_r by lia. nia.
    - apply Zdigits2_ge_intro; try lia. rewrite Hsum.
      replace (Zpos (digits2_pos m1) + n - 1) with (Zpos (digits2_pos m1) - 1 + n) by lia.
      rewrite Z.pow_add_r by lia. nia. }
  unfold binary_round.
  assert (Hfexp : fexp prec emax (Zpos (digits2_pos (a + m2)) + e2) = e1).
  { rewrite Hdig. replace (Zpos (digits2_pos m1) + n + e2) with (Zpos (digits2_pos m1) + e1)
      by (unfold n; lia). exact Hcan. }
  rewrite Hfexp. rewrite (shl_align_ge (a + m2) e2 e1) by lia.
  unfold binary_round_aux.
  assert (Hshr1 : shr_fexp prec emax (Zpos (a + m2)) e2 loc_Exact
                  = (Build_shr_record (Zpos m1) false true, e1)).
  { unfold shr_fexp. cbn [Zdigits2]. rewrite Hfexp. fold n.
    destruct n as [|p|p] eqn:En; try lia.
    cbn [shr shr_record_of_loc]. f_equal; [|lia].
    rewrite iter_pos_nat.
    destruct (Pos.to_nat p) as [|k] eqn:Ek; [pose proof (Pos2Nat.is_pos p); lia|].
    assert (HpZ : Zpos p = Z.of_nat (S k)) by (rewrite <- Ek, positive_nat_Z; reflexivity).
    rewrite Hsum, HpZ.
    rewrite iter_shr_low; try lia.
    - destruct (Z.eqb_spec (Zpos m2) 0); [lia|reflexivity].
    - replace (Z.of_nat k) with (Zpos p - 1) by lia. exact Hm2. }
  rewrite Hshr1. cbn [shr_m loc_of_shr_record round_nearest_even].
  assert (Hshr2 : shr_fexp prec emax (Zpos m1) e1 loc_Exact
                  = (Build_shr_record (Zpos m1) false false, e1)).
  { unfold shr_fexp. cbn [Zdigits2]. rewrite Hcan, Z.sub_diag. reflexivity. }
  rewrite Hshr2. cbn [shr_m].
  replace (e1 <=? emax - prec) with true; [reflexivity|].
  symmetry. apply Z.leb_le. change (emax - prec) with 971. lia.
Qed.

Lemma valid_finite (x : float) (s : bool) (m : positive) (e : Z) :
  Prim2SF x = S754_finite s m e ->
  fexp prec emax (Zpos (digits2_pos m) + e) = e
  /\ e <= 971
  /\ Zpos (digits2_pos m) <= 53.
Proof.
  intros H. pose proof (Prim2SF_valid x) as Hv. rewrite H in Hv.
  cbn [SpecFloat.valid_binary] in Hv. unfold bounded, canonical_mantissa in Hv.
  apply andb_true_iff in Hv. destruct Hv as [Hc He].
  apply Z.eqb_eq in Hc. apply Z.leb_le in He. change (emax - prec) with 971 in He.
  split; [exact Hc|]. split; [exact He|].
  rewrite fexp_eq in Hc. lia.
Qed.

Lemma Prim2SF_zero : Prim2SF 0%float = S754_zero false.
Proof. reflexivity. Qed.

Lemma Prim2SF_hundred : Prim2SF 100%float = S754_finite false 7036874417766400 (-46).
Proof. reflexivity. Qed.

Lemma in_range_below (x : float) :
  in_range x = true -> nonneg_below 7 (Prim2SF x).
Proof.
  unfold in_range. intros H. apply andb_true_iff in H. destruct H as [H0 H100].
  rewrite leb_spec, Prim2SF_zero in H0. rewrite leb_spec, Prim2SF_hundred in H100.
  destruct (Prim2SF x) as [s|s| |s m e] eqn:Ex; cbn [nonneg_below].
  - exact I.
  - destruct s; [discriminate H0 | discriminate H100].
  - discriminate H0.
  - destruct s; [discriminate H0|].
    destruct (valid_finite x false m e Ex) as (_ & _ & Hd).
    unfold SFleb in H100. cbn [SFcompare] in H100.
    destruct (Z.compare_spec e (-46)) as [He|He|He]; try lia.
    all: try discriminate H100.
Qed.

Lemma contribution_below (s w : float) :
  in_range s = true -> in_range w = true ->
  nonneg_below 10 (Prim2SF ((s / 100) * w)%float).
Proof.
  intros Hs Hw. rewrite mul_spec, div_spec, Prim2SF_hundred.
  unfold SF64mul, SF64div.
  change 10 with (2 + 7 + 1).
  apply SFmul_nonneg_below; [| apply in_range_below; exact Hw | lia].
  change 2 with (1 + 1).
  apply (SFdiv_nonneg_below 7); [apply in_range_below; exact Hs | cbn; lia | lia].
Qed.

Lemma add_keeps_finite (t c : float) :
  nonneg_finite (Prim2SF t) -> nonneg_below 10 (Prim2SF c) ->
  nonneg_finite (Prim2SF (t + c)%float).
Proof.
  intros Ht Hc. rewrite add_spec. unfold SF64add.
  destruct (Prim2SF t) as [st|st| |st m1 e1] eqn:Et; cbn [nonneg_finite] in Ht;
    try contradiction.
  - destruct (Prim2SF c) as [sc|sc| |sc m2 e2] eqn:Ec; cbn [nonneg_below] in Hc;
      try contradiction.
    + cbn [SFadd]. destruct st, sc; exact I.
    + destruct sc; [contradiction|]. cbn [SFadd]. exact I.
  - destruct st; [contradiction|].
    destruct (valid_finite t false m1 e1 Et) as (Hcan & Hmax & Hd1).
    destruct (Prim2SF c) as [sc|sc| |sc m2 e2] eqn:Ec; cbn [nonneg_below] in Hc;
      try contradiction.
    + cbn [SFadd]. exact I.
    + destruct sc; [contradiction|].
      destruct (Z_le_gt_dec (Zpos (digits2_pos m2) + e2) (e1 - 1)) as [Hsmall|Hbig].
      * rewrite (SFadd_absorb m1 m2 e1 e2 Hcan Hmax Hsmall). exact I.
      * apply (nonneg_below_finite (63 + 2)).
        apply SFadd_small; lia.
Qed.

End FloatBounds.

(** ** The transcript of in-range records *)

Lemma format_2f_nonneg_finite (x : float) :
  nonneg_finite (Prim2SF x) -> two_decimals (format_2f x) = true.
Proof.
  unfold format_2f. intros H.
  destruct (Prim2SF x) as [s|s| |s m e]; cbn [nonneg_finite] in H;
    try contradiction; apply fixed2_two_decimals.
Qed.

Lemma in_range_two_decimals (x : float) :
  in_range x = true -> two_decimals (format_2f x) = true.
Proof.
  intros H. apply format_2f_nonneg_finite.
  apply (nonneg_below_finite 7). apply in_range_below. exact H.
Qed.

(** The totals stay finite and non-negative over any number of in-range
    records. *)
Lemma accumulate_finite (c : category) (l : list Assignment) :
  (forall a, In a l -> in_range (score a) = true /\ in_range (weight a) = true) ->
  forall t : float,
    nonneg_finite (Prim2SF t) -> nonneg_finite (Prim2SF (accumulate c l t)).
Proof.
  unfold accumulate. induction l as [|a rest IH]; intros Hl t Ht; cbn [filter].
  - exact Ht.
  - assert (Hrest : forall b, In b rest ->
                      in_range (score b) = true /\ in_range (weight b) = true).
    { intros b Hb. apply Hl. right. exact Hb. }
    destruct (category_eqb (type a) c); cbn [fold_left].
    + apply (IH Hrest). apply add_keeps_finite; [exact Ht|].
      destruct (Hl a (or_introl eq_refl)) as [Hs Hw].
      unfold calculate_weighted_score. apply contribution_below; assumption.
    + apply (IH Hrest). exact Ht.
Qed.

(** C7: with scores and weights of the documented range (0 to 100), the
    transcript printed after [calculate_scores] is the header, one row per
    record showing the score and the weight under [.2f], and the two
    totals under [.2f]; every one of these numbers, the score and the
    weight of each row and both totals, is rendered with exactly two
    decimal digits, the totals being finite and non-negative however many
    records there are. *)
Theorem transcript_two_decimals_in_range (l : list Assignment) :
  (forall a, In a l -> in_range (score a) = true /\ in_range (weight a) = true) ->
  transcript (scored l)
  = transcript_header
    ++ map (fun a => (name a ++ tab ++ category_str (type a) ++ tab
                      ++ format_2f (score a) ++ tab ++ format_2f (weight a)
                      ++ nl)%string)
           l
    ++ [ (nl ++ "Formative Total: " ++ format_2f (formative_total (scored l))
          ++ "%" ++ nl)%string;
         ("Summative Total: " ++ format_2f (summative_total (scored l))
          ++ "%" ++ nl)%string ]
  /\ transcript_numbers_two_decimals (scored l)
  /\ nonneg_finite (Prim2SF (formative_total (scored l)))
  /\ nonneg_finite (Prim2SF (summative_total (scored l))).
Proof.
  intros Hl.
  assert (Hzero : nonneg_finite (Prim2SF 0)) by exact I.
  assert (HF : nonneg_finite (Prim2SF (formative_total (scored l)))).
  { rewrite scored_spec. cbn [formative_total].
    apply accumulate_finite; assumption. }
  assert (HS : nonneg_finite (Prim2SF (summative_total (scored l)))).
  { rewrite scored_spec. cbn [summative_total].
    apply accumulate_finite; assumption. }
  split; [|split; [|split; assumption]].
  - unfold transcript. rewrite generate_transcript_spec.
    unfold Py.output_of. cbn [snd].
    rewrite scored_spec at 1. cbn [assignments]. f_equal. f_equal.
    + apply map_ext. intros a. unfold transcript_row.
      repeat rewrite append_assoc. reflexivity.
    + unfold transcript_totals, formative_line, summative_line.
      repeat rewrite append_assoc. reflexivity.
  - unfold transcript_numbers_two_decimals. split; [|split].
    + intros a Ha. rewrite scored_spec in Ha. cbn [assignments] in Ha.
      destruct (Hl a Ha) as [Hs Hw].
      split; apply in_range_two_decimals; assumption.
    + apply format_2f_nonneg_finite. exact HF.
    + apply format_2f_nonneg_finite. exact HS.
Qed.

Lemma transcript_two_decimals_in_range_sample :
  (forall a, In a sample_assignments ->
     in_range (score a) = true /\ in_range (weight a) = true)
  /\ transcript (scored sample_assignments)
     = transcript_header
       ++ map (fun a => (name a ++ tab ++ category_str (type a) ++ tab
                         ++ format_2f (score a) ++ tab ++ format_2f (weight a)
                         ++ nl)%string)
              sample_assignments
       ++ [ (nl ++ "Formative Total: "
             ++ format_2f (formative_total (scored sample_assignments))
             ++ "%" ++ nl)%string;
            ("Summative Total: "
             ++ format_2f (summative_total (scored sample_assignments))
             ++ "%" ++ nl)%string ]
  /\ transcript_numbers_two_decimals (scored sample_assignments)
  /\ nonneg_finite (Prim2SF (formative_total (scored sample_assignments)))
  /\ nonneg_finite (Prim2SF (summative_total (scored sample_assignments))).
Proof.
  assert (H : forall a, In a sample_assignments ->
                in_range (score a) = true /\ in_range (weight a) = true).
  { intros a Ha. simpl in Ha.
    destruct Ha as [<-|[<-|[<-|[<-|[<-|[<-|[]]]]]]]; split; reflexivity. }
  split; [exact H|].
  exact (transcript_two_decimals_in_range sample_assignments H).
Defined.
